(** * The retrieval tools and their registry ([backend/search_tools.py])

    A shallow embedding of [CourseSearchTool], [CourseOutlineTool] and
    [ToolManager], followed by the properties the specification states
    about them.

    Python objects are records; a method takes [self] and gives back the
    result together with the object after the call.  A call either returns
    a value or raises ([PyResult]).  The dictionary [ToolManager.tools] is
    an association list in insertion order, because the code iterates over
    [self.tools.values()] and the order decides what it returns. *)

From Stdlib Require Import ZArith String Ascii List DecimalString.
From stdpp Require Import base option list strings gmap.
Import ListNotations.

Local Open Scope string_scope.
Local Open Scope list_scope.

(** ** Python values and built-ins *)

Module Py.

(** The values a keyword argument or a decoded JSON document can hold:
    [None], [bool], [int], [str], [list] and [dict] (keys in insertion
    order).  Fractional numbers are left out: neither the tool schemas
    nor the lesson blobs carry any. *)
#[warnings="-register-all"]
Inductive PyVal : Type :=
| PNone
| PBool (b : bool)
| PInt (z : Z)
| PStr (s : string)
| PList (items : list PyVal)
| PDict (entries : list (string * PyVal)).

Inductive PyExn : Type :=
| ValueError (msg : string)
| TypeError (msg : string)
| AttributeError (msg : string)
| ValidationError (msg : string)
| JSONDecodeError (msg : string)
| RecursionError (msg : string).

Inductive PyResult (A : Type) : Type :=
| Returns (a : A)
| Raises (e : PyExn).
Arguments Returns {A} a.
Arguments Raises {A} e.

#[export] Instance PyResult_ret : MRet PyResult := fun _ a => Returns a.
#[export] Instance PyResult_bind : MBind PyResult := fun _ _ f r =>
  match r with
  | Returns a => f a
  | Raises e => Raises e
  end.

(** The Python runtime services the tools call and this repository does
    not define: [repr] of a container (used by [str] and by f-strings) and
    [json.loads].  On a text, [json.loads] returns the decoded value or
    raises: [JSONDecodeError] on a malformed document, and also
    [RecursionError] (nesting beyond the recursion limit) and
    [ValueError] (an integer of more digits than [int] converts). *)
Class PyRuntime : Type := {
  py_repr : PyVal -> string;
  json_loads : string -> PyResult PyVal
}.

(** [bool(v)], the test behind [if v:] and [not v]. *)
Definition py_truthy (v : PyVal) : bool :=
  match v with
  | PNone => false
  | PBool b => b
  | PInt z => negb (z =? 0)%Z
  | PStr s => negb (String.eqb s EmptyString)
  | PList items => match items with [] => false | _ :: _ => true end
  | PDict entries => match entries with [] => false | _ :: _ => true end
  end.

(** The text an [if o:] test lets through: an [Optional[str]] that is
    neither [None] nor empty. *)
Definition truthy_text (o : option string) : option string :=
  match o with
  | Some s => if String.eqb s EmptyString then None else Some s
  | None => None
  end.

(** [str(n)] for an [int]. *)
Definition str_int (z : Z) : string := NilZero.string_of_int (Z.to_int z).

(** [str(v)], what [f"{v}"] interpolates. *)
Definition py_str `{PyRuntime} (v : PyVal) : string :=
  match v with
  | PNone => "None"
  | PBool true => "True"
  | PBool false => "False"
  | PInt z => str_int z
  | PStr s => s
  | PList _ | PDict _ => py_repr v
  end.

Definition nl : string := String "010"%char EmptyString.

(** [sep.join(parts)]. *)
Definition join (sep : string) (parts : list string) : string :=
  String.concat sep parts.

(** [d.get(key, dflt)] on an insertion-ordered dictionary. *)
Fixpoint dict_get {V} (key : string) (d : list (string * V)) : option V :=
  match d with
  | [] => None
  | (k, v) :: rest => if String.eqb k key then Some v else dict_get key rest
  end.

(** [d[key] = v]: an existing key keeps its place, a new one goes last. *)
Fixpoint dict_set {V} (key : string) (v : V) (d : list (string * V))
  : list (string * V) :=
  match d with
  | [] => [(key, v)]
  | (k, w) :: rest =>
      if String.eqb k key then (k, v) :: rest
      else (k, w) :: dict_set key v rest
  end.

Definition dict_keys {V} (d : list (string * V)) : list string := map fst d.
Definition dict_values {V} (d : list (string * V)) : list V := map snd d.

(** [obj.get(key, dflt)]: only a [dict] has the method. *)
Definition py_get (obj : PyVal) (key : string) (dflt : PyVal)
  : PyResult PyVal :=
  match obj with
  | PDict entries => Returns (default dflt (dict_get key entries))
  | _ => Raises (AttributeError "object has no attribute 'get'")
  end.

(** The items a [for] loop draws from [v]. *)
Definition py_iter (v : PyVal) : PyResult (list PyVal) :=
  match v with
  | PList items => Returns items
  | PDict entries => Returns (map PStr (dict_keys entries))
  | PStr s => Returns (map (fun c => PStr (String c EmptyString))
                           (list_ascii_of_string s))
  | PNone | PBool _ | PInt _ => Raises (TypeError "object is not iterable")
  end.

(** A [for] loop whose body may raise: left to right, stopping at the
    first exception. *)
Fixpoint for_each {A B} (body : B -> A -> PyResult B) (items : list A)
  (acc : B) : PyResult B :=
  match items with
  | [] => Returns acc
  | x :: rest =>
      match body acc x with
      | Returns acc' => for_each body rest acc'
      | Raises e => Raises e
      end
  end.

End Py.
Export Py.

(** ** Collaborators: [models.Source] and [vector_store] *)

(** Modelled from the spec: [models.Source] is not among the sources; the
    data model gives a citation as a display text with an optional link. *)
Record Source : Type := { text : string; link : option string }.

(** Modelled from the spec: the constructor of [models.Source], called
    with a link that was read from decoded JSON.  The link of a citation
    is a text or absent; any other value is refused. *)
Definition Source_of (display : string) (lnk : PyVal) : PyResult Source :=
  match lnk with
  | PNone => Returns {| text := display; link := None |}
  | PStr s => Returns {| text := display; link := Some s |}
  | _ => Raises (ValidationError "link: Input should be a valid string")
  end.

(** The metadata map of one hit: [course_title] and [lesson_number], each
    of which may be missing. *)
Record HitMetadata : Type := {
  course_title : option string;
  lesson_number : option Z
}.

(** Modelled from the spec: [vector_store.SearchResults] is not among the
    sources; the data model gives a hit set as ordered documents, ordered
    metadata, distances and an optional error.  The distances, which no
    tool reads, are left out. *)
Record SearchResults : Type := {
  documents : list string;
  metadata : list HitMetadata;
  error : option string
}.

(** Modelled from the spec: [SearchResults.is_empty], "no hits are
    returned". *)
Definition is_empty (results : SearchResults) : bool :=
  match documents results with [] => true | _ :: _ => false end.

(** One entry of the course catalog, as the catalog lookup returns it;
    every key may be missing. *)
Record CourseMetadata : Type := {
  title : option string;
  course_link : option string;
  instructor : option string;
  lessons_json : option string
}.

(** The retrieval collaborator, [vector_store.VectorStore], reduced to the
    five entry points the tools call.  Its answers are functions of the
    arguments: the tools only read from it.
    [course_catalog_get ids] stands for
    [course_catalog.get(ids=ids)['metadatas']]. *)
Record VectorStore : Type := {
  search : PyVal -> PyVal -> PyVal -> SearchResults;
  get_lesson_link : string -> Z -> option string;
  _resolve_course_name : PyVal -> option string;
  get_existing_course_titles : list string;
  course_catalog_get : list string -> option (list CourseMetadata)
}.

(** ** The [Tool] interface *)

Record Property : Type := {
  prop_name : string;
  prop_type : string;
  prop_description : string
}.

Record InputSchema : Type := {
  schema_type : string;
  properties : list Property;
  required : list string
}.

(** A tool definition is a dictionary; [name] is what
    [tool_def.get("name")] gives, [None] when the key is missing. *)
Record ToolDefinition : Type := {
  name : option string;
  description : string;
  input_schema : InputSchema
}.

(** The keyword arguments of a call, [**kwargs]. *)
Abbreviation kwargs := (gmap string PyVal).

(** [class Tool(ABC)]: the two abstract methods.  [execute] gives the
    outcome and the tool after the call. *)
Class Tool (T : Type) : Type := {
  get_tool_definition : T -> ToolDefinition;
  execute : T -> kwargs -> PyResult string * T
}.

(** Python's check of a keyword call against a signature: every keyword
    must name a parameter. *)
Definition unexpected_keyword (params : list string) (kw : kwargs) : bool :=
  negb (forallb (fun k => bool_decide (k ∈ params))
          (map fst (map_to_list kw))).

(** ** [CourseSearchTool] *)

Module CourseSearchTool.

Record t : Type := {
  store : VectorStore;
  last_sources : list Source
}.

Definition __init__ (vector_store : VectorStore) : t :=
  {| store := vector_store; last_sources := [] |}.

Definition get_tool_definition (self : t) : ToolDefinition :=
  {| name := Some "search_course_content";
     description := "Search course materials with smart course name matching and lesson filtering";
     input_schema :=
       {| schema_type := "object";
          properties :=
            [ {| prop_name := "query"; prop_type := "string";
                 prop_description := "What to search for in the course content" |};
              {| prop_name := "course_name"; prop_type := "string";
                 prop_description := "Course title (partial matches work, e.g. 'MCP', 'Introduction')" |};
              {| prop_name := "lesson_number"; prop_type := "integer";
                 prop_description := "Specific lesson number to search within (e.g. 1, 2, 3)" |} ];
          required := ["query"] |} |}.

(** The body of the loop of [_format_results], on the two lists it
    appends to. *)
Definition format_hit (self : t) (acc : list string * list Source)
  (hit : string * HitMetadata) : list string * list Source :=
  let '(formatted, sources) := acc in
  let '(doc, meta) := hit in
  let course_title := default "unknown" (course_title meta) in
  let lesson_num := lesson_number meta in
  let header := "[" +:+ course_title in
  let header :=
    match lesson_num with
    | Some n => header +:+ " - Lesson " +:+ str_int n
    | None => header
    end in
  let header := header +:+ "]" in
  let source_text := course_title in
  let source_text :=
    match lesson_num with
    | Some n => source_text +:+ " - Lesson " +:+ str_int n
    | None => source_text
    end in
  let lesson_link :=
    match lesson_num with
    | Some n => get_lesson_link (store self) course_title n
    | None => None
    end in
  let source_obj := {| text := source_text; link := lesson_link |} in
  (formatted ++ [header +:+ nl +:+ doc], sources ++ [source_obj]).

Definition _format_results (self : t) (results : SearchResults)
  : string * t :=
  let '(formatted, sources) :=
    fold_left (format_hit self)
      (zip (documents results) (metadata results)) ([], []) in
  (join (nl +:+ nl) formatted,
   {| store := store self; last_sources := sources |}).

Definition execute `{PyRuntime} (self : t)
  (query course_name lesson_number : PyVal) : PyResult string * t :=
  let results := search (store self) query course_name lesson_number in
  match truthy_text (error results) with
  | Some message => (Returns message, self)
  | None =>
  if is_empty results then
    let filter_info := EmptyString in
    let filter_info :=
      if py_truthy course_name
      then filter_info +:+ " in course '" +:+ py_str course_name +:+ "'"
      else filter_info in
    let filter_info :=
      if py_truthy lesson_number
      then filter_info +:+ " in lesson " +:+ py_str lesson_number
      else filter_info in
    (Returns ("No relevant content found" +:+ filter_info +:+ "."), self)
  else
    let '(out, self') := _format_results self results in
    (Returns out, self')
  end.

(** [execute] called with keyword arguments: Python binds them to
    [(query, course_name=None, lesson_number=None)] and refuses the call
    when a keyword is unknown or [query] is missing. *)
Definition call `{PyRuntime} (self : t) (kw : kwargs)
  : PyResult string * t :=
  if unexpected_keyword ["query"; "course_name"; "lesson_number"] kw then
    (Raises (TypeError "execute() got an unexpected keyword argument"), self)
  else
    match kw !! "query" with
    | None =>
        (Raises (TypeError "execute() missing 1 required argument: 'query'"),
         self)
    | Some query =>
        execute self query
          (default PNone (kw !! "course_name"))
          (default PNone (kw !! "lesson_number"))
    end.

End CourseSearchTool.

#[export] Instance CourseSearchTool_Tool `{PyRuntime}
  : Tool CourseSearchTool.t := {
  get_tool_definition := CourseSearchTool.get_tool_definition;
  execute := CourseSearchTool.call
}.

(** ** [CourseOutlineTool] *)

Module CourseOutlineTool.

Record t : Type := {
  store : VectorStore;
  last_sources : list Source
}.

Definition __init__ (vector_store : VectorStore) : t :=
  {| store := vector_store; last_sources := [] |}.

Definition get_tool_definition (self : t) : ToolDefinition :=
  {| name := Some "get_course_outline";
     description := "Get complete course outline including course title, link, instructor, and all lessons with numbers and titles. Use when users ask about course structure or lesson list.";
     input_schema :=
       {| schema_type := "object";
          properties :=
            [ {| prop_name := "course_name"; prop_type := "string";
                 prop_description := "Course title (partial matches work, e.g. 'MCP', 'Introduction')" |} ];
          required := ["course_name"] |} |}.

(** The body of the loop of [_format_outline].  The three [lesson.get]
    calls raise on an item that is not a dictionary. *)
Definition format_lesson `{PyRuntime} (course_title : string)
  (acc : list string * list Source) (lesson : PyVal)
  : PyResult (list string * list Source) :=
  let '(formatted, sources) := acc in
  lesson_num ← py_get lesson "lesson_number" PNone;
  lesson_title ← py_get lesson "lesson_title" (PStr "Untitled");
  lesson_link ← py_get lesson "lesson_link" PNone;
  let formatted :=
    formatted ++
    ["- Lesson " +:+ py_str lesson_num +:+ ": " +:+ py_str lesson_title] in
  if py_truthy lesson_link then
    let source_text := course_title +:+ " - Lesson " +:+ py_str lesson_num in
    source_obj ← Source_of source_text lesson_link;
    mret (formatted, sources ++ [source_obj])
  else
    mret (formatted, sources).

Definition _format_outline `{PyRuntime} (self : t) (course_title : string)
  (course_link : option string) (instructor : string) (lessons : PyVal)
  : PyResult string * t :=
  let formatted := [] in
  let sources := [] in
  let formatted := formatted ++ ["Course: " +:+ course_title] in
  let formatted :=
    match truthy_text course_link with
    | Some url => formatted ++ ["Link: " +:+ url]
    | None => formatted
    end in
  let formatted := formatted ++ ["Instructor: " +:+ instructor] in
  let formatted := formatted ++ [EmptyString] in
  let formatted := formatted ++ ["Lessons:"] in
  let body :=
    if py_truthy lessons then
      items ← py_iter lessons;
      for_each (format_lesson course_title) items (formatted, sources)
    else
      mret (formatted ++ ["- No lessons available"], sources) in
  match body with
  | Returns (formatted, sources) =>
      (Returns (join nl formatted),
       {| store := store self; last_sources := sources |})
  | Raises e => (Raises e, self)
  end.

(** Step 5 of [execute]: [json.loads] under
    [except json.JSONDecodeError], which turns that exception, and no
    other, into the empty list. *)
Definition parse_lessons `{PyRuntime} (lessons_json : string)
  : PyResult PyVal :=
  match json_loads lessons_json with
  | Returns decoded => Returns decoded
  | Raises (JSONDecodeError _) => Returns (PList [])
  | Raises e => Raises e
  end.

Definition execute `{PyRuntime} (self : t) (course_name : PyVal)
  : PyResult string * t :=
  let resolved_title := _resolve_course_name (store self) course_name in
  match truthy_text resolved_title with
  | None =>
      let existing_courses := get_existing_course_titles (store self) in
      match existing_courses with
      | _ :: _ =>
          let course_list := join ", " existing_courses in
          (Returns ("No course found matching '" +:+ py_str course_name
                    +:+ "'. Available courses: " +:+ course_list), self)
      | [] => (Returns "No courses available in the system.", self)
      end
  | Some resolved_title =>
      match course_catalog_get (store self) [resolved_title] with
      | None | Some [] =>
          (Returns ("Error: Unable to retrieve metadata for '"
                    +:+ resolved_title +:+ "'"), self)
      | Some (metadata :: _) =>
          let course_title := default "Unknown" (title metadata) in
          let course_link := course_link metadata in
          let instructor := default "Unknown" (instructor metadata) in
          let lessons_json := default "[]" (lessons_json metadata) in
          match parse_lessons lessons_json with
          | Returns lessons =>
              _format_outline self course_title course_link instructor
                lessons
          | Raises e => (Raises e, self)
          end
      end
  end.

(** [execute] called with keyword arguments, bound to [(course_name)]. *)
Definition call `{PyRuntime} (self : t) (kw : kwargs)
  : PyResult string * t :=
  if unexpected_keyword ["course_name"] kw then
    (Raises (TypeError "execute() got an unexpected keyword argument"), self)
  else
    match kw !! "course_name" with
    | None =>
        (Raises
           (TypeError "execute() missing 1 required argument: 'course_name'"),
         self)
    | Some course_name => execute self course_name
    end.

End CourseOutlineTool.

#[export] Instance CourseOutlineTool_Tool `{PyRuntime}
  : Tool CourseOutlineTool.t := {
  get_tool_definition := CourseOutlineTool.get_tool_definition;
  execute := CourseOutlineTool.call
}.

(** ** Any other tool *)

(** [register_tool] takes "any tool that implements the Tool interface".
    A [PlainTool] is such an implementation given by its parts: the
    definition it reports, what its [execute] does, and its
    [last_sources] attribute, [None] when the object has none. *)
Module PlainTool.

Record t : Type := {
  definition : ToolDefinition;
  behaviour : kwargs -> option (list Source)
              -> PyResult string * option (list Source);
  last_sources : option (list Source)
}.

Definition call (self : t) (kw : kwargs) : PyResult string * t :=
  let '(outcome, sources) := behaviour self kw (last_sources self) in
  (outcome,
   {| definition := definition self;
      behaviour := behaviour self;
      last_sources := sources |}).

End PlainTool.

#[export] Instance PlainTool_Tool : Tool PlainTool.t := {
  get_tool_definition := PlainTool.definition;
  execute := PlainTool.call
}.

(** The tool objects a registry can hold. *)
Inductive AnyTool : Type :=
| SearchTool (tool : CourseSearchTool.t)
| OutlineTool (tool : CourseOutlineTool.t)
| OtherTool (tool : PlainTool.t).

Definition tool_definition (tool : AnyTool) : ToolDefinition :=
  match tool with
  | SearchTool s => CourseSearchTool.get_tool_definition s
  | OutlineTool o => CourseOutlineTool.get_tool_definition o
  | OtherTool p => PlainTool.definition p
  end.

Definition tool_execute `{PyRuntime} (tool : AnyTool) (kw : kwargs)
  : PyResult string * AnyTool :=
  match tool with
  | SearchTool s => let '(r, s') := execute s kw in (r, SearchTool s')
  | OutlineTool o => let '(r, o') := execute o kw in (r, OutlineTool o')
  | OtherTool p => let '(r, p') := execute p kw in (r, OtherTool p')
  end.

(** [tool.last_sources] where [hasattr(tool, 'last_sources')], else
    [None]. *)
Definition tool_last_sources (tool : AnyTool) : option (list Source) :=
  match tool with
  | SearchTool s => Some (CourseSearchTool.last_sources s)
  | OutlineTool o => Some (CourseOutlineTool.last_sources o)
  | OtherTool p => PlainTool.last_sources p
  end.

(** [if hasattr(tool, 'last_sources'): tool.last_sources = []]. *)
Definition tool_reset_sources (tool : AnyTool) : AnyTool :=
  match tool with
  | SearchTool s =>
      SearchTool {| CourseSearchTool.store := CourseSearchTool.store s;
                    CourseSearchTool.last_sources := [] |}
  | OutlineTool o =>
      OutlineTool {| CourseOutlineTool.store := CourseOutlineTool.store o;
                     CourseOutlineTool.last_sources := [] |}
  | OtherTool p =>
      match PlainTool.last_sources p with
      | Some _ =>
          OtherTool {| PlainTool.definition := PlainTool.definition p;
                       PlainTool.behaviour := PlainTool.behaviour p;
                       PlainTool.last_sources := Some [] |}
      | None => OtherTool p
      end
  end.

(** ** [ToolManager] *)

Module ToolManager.

(** [tools] is the dictionary from tool name to tool object, in insertion
    order. *)
Record t : Type := { tools : list (string * AnyTool) }.

Definition __init__ : t := {| tools := [] |}.

Definition register_tool (self : t) (tool : AnyTool) : PyResult unit * t :=
  let tool_def := tool_definition tool in
  let tool_name := name tool_def in
  match truthy_text tool_name with
  | None =>
      (Raises (ValueError "Tool must have a 'name' in its definition"), self)
  | Some tool_name =>
      (Returns tt, {| tools := dict_set tool_name tool (tools self) |})
  end.

Definition get_tool_definitions (self : t) : list ToolDefinition :=
  map tool_definition (dict_values (tools self)).

Definition execute_tool `{PyRuntime} (self : t) (tool_name : string)
  (kw : kwargs) : PyResult string * t :=
  match dict_get tool_name (tools self) with
  | None => (Returns ("Tool '" +:+ tool_name +:+ "' not found"), self)
  | Some tool =>
      let '(outcome, tool') := tool_execute tool kw in
      (outcome, {| tools := dict_set tool_name tool' (tools self) |})
  end.

(** The loop of [get_last_sources] over [self.tools.values()]: the first
    tool that has a non-empty [last_sources] ends it. *)
Fixpoint first_sources (values : list AnyTool) : list Source :=
  match values with
  | [] => []
  | tool :: rest =>
      match tool_last_sources tool with
      | Some (s :: more) => s :: more
      | Some [] | None => first_sources rest
      end
  end.

Definition get_last_sources (self : t) : list Source :=
  first_sources (dict_values (tools self)).

Definition reset_sources (self : t) : t :=
  {| tools := map (fun entry => (fst entry, tool_reset_sources (snd entry)))
                  (tools self) |}.

End ToolManager.

(** ** A reference runtime

    A concrete [PyRuntime] to run the tools on: [repr] for text in
    printable ASCII, and a decoder for the JSON the catalog stores
    (objects, arrays, strings with the simple escapes, integers, [true],
    [false], [null]).  Anything else the decoder rejects as malformed.
    Like CPython's decoder it gives up with [RecursionError] on nesting
    beyond the recursion limit (1000 by default) and with [ValueError]
    on an integer of more than 4300 digits. *)

Module RefRuntime.

Local Open Scope char_scope.

Definition is_ws (c : ascii) : bool :=
  match c with
  | " " | "009" | "010" | "013" => true
  | _ => false
  end.

Fixpoint skip_ws (cs : list ascii) : list ascii :=
  match cs with
  | c :: rest => if is_ws c then skip_ws rest else cs
  | [] => []
  end.

Definition digit_value (c : ascii) : option Z :=
  match c with
  | "0" => Some 0%Z | "1" => Some 1%Z | "2" => Some 2%Z | "3" => Some 3%Z
  | "4" => Some 4%Z | "5" => Some 5%Z | "6" => Some 6%Z | "7" => Some 7%Z
  | "8" => Some 8%Z | "9" => Some 9%Z
  | _ => None
  end.

(** The longest run of digits at the head of [cs], read in base ten
    onto [acc]. *)
Fixpoint read_digits (cs : list ascii) (acc : Z) : Z * list ascii :=
  match cs with
  | c :: rest =>
      match digit_value c with
      | Some d => read_digits rest (10 * acc + d)%Z
      | None => (acc, cs)
      end
  | [] => (acc, [])
  end.

(** A number may not run on into a fraction or an exponent. *)
Definition ends_integer (cs : list ascii) : bool :=
  match cs with
  | "." :: _ | "e" :: _ | "E" :: _ => false
  | _ => true
  end.

(** An unsigned JSON integer: a lone [0], or digits not starting with
    [0]. *)
Definition read_natural (cs : list ascii) : option (Z * list ascii) :=
  match cs with
  | "0" :: rest => if ends_integer rest then Some (0%Z, rest) else None
  | c :: _ =>
      match digit_value c with
      | Some _ =>
          let '(n, rest) := read_digits cs 0%Z in
          if ends_integer rest then Some (n, rest) else None
      | None => None
      end
  | [] => None
  end.

Definition unescape (c : ascii) : option ascii :=
  match c with
  | "034" => Some "034" | "\" => Some "\" | "/" => Some "/"
  | "n" => Some "010" | "t" => Some "009" | "r" => Some "013"
  | "b" => Some "008" | "f" => Some "012"
  | _ => None
  end.

(** The characters of a string literal after its opening quote, up to
    the closing one. *)
Fixpoint read_string (cs : list ascii) : option (string * list ascii) :=
  match cs with
  | [] => None
  | "034" :: rest => Some (EmptyString, rest)
  | "\" :: e :: rest =>
      match unescape e, read_string rest with
      | Some c, Some (s, rest') => Some (String c s, rest')
      | _, _ => None
      end
  | c :: rest =>
      if (nat_of_ascii c <? 32)%nat then None
      else match read_string rest with
           | Some (s, rest') => Some (String c s, rest')
           | None => None
           end
  end.

Definition depth_limit : nat := 1000.
Definition digit_limit : nat := 4300.

Definition malformed {A} : PyResult A :=
  Raises (JSONDecodeError "Expecting value").

Definition too_deep {A} : PyResult A :=
  Raises (RecursionError
            "maximum recursion depth exceeded while decoding a JSON document").

(** An integer literal: [int] refuses more than [digit_limit] digits. *)
Definition read_integer (negative : bool) (cs : list ascii)
  : PyResult (PyVal * list ascii) :=
  match read_natural cs with
  | Some (n, rest) =>
      if (digit_limit <? length cs - length rest)%nat then
        Raises (ValueError
                  "Exceeds the limit (4300 digits) for integer string conversion")
      else Returns (PInt (if negative then - n else n), rest)
  | None => malformed
  end.

(** [depth] counts the arrays and objects the value stands in. *)
Fixpoint read_value (fuel depth : nat) (cs : list ascii)
  : PyResult (PyVal * list ascii) :=
  match fuel with
  | O => malformed
  | S fuel =>
      match skip_ws cs with
      | "n" :: "u" :: "l" :: "l" :: rest => Returns (PNone, rest)
      | "t" :: "r" :: "u" :: "e" :: rest => Returns (PBool true, rest)
      | "f" :: "a" :: "l" :: "s" :: "e" :: rest => Returns (PBool false, rest)
      | "034" :: rest =>
          match read_string rest with
          | Some (s, rest') => Returns (PStr s, rest')
          | None => malformed
          end
      | "-" :: rest => read_integer true rest
      | "[" :: rest =>
          if (depth_limit <=? depth)%nat then too_deep
          else
            match skip_ws rest with
            | "]" :: rest' => Returns (PList [], rest')
            | _ => read_items fuel (S depth) rest []
            end
      | "{" :: rest =>
          if (depth_limit <=? depth)%nat then too_deep
          else
            match skip_ws rest with
            | "}" :: rest' => Returns (PDict [], rest')
            | _ => read_members fuel (S depth) rest []
            end
      | other => read_integer false other
      end
  end
with read_items (fuel depth : nat) (cs : list ascii) (acc : list PyVal)
  : PyResult (PyVal * list ascii) :=
  match fuel with
  | O => malformed
  | S fuel =>
      match read_value fuel depth cs with
      | Returns (v, rest) =>
          match skip_ws rest with
          | "," :: rest' => read_items fuel depth rest' (acc ++ [v])
          | "]" :: rest' => Returns (PList (acc ++ [v]), rest')
          | _ => malformed
          end
      | Raises e => Raises e
      end
  end
with read_members (fuel depth : nat) (cs : list ascii)
  (acc : list (string * PyVal)) : PyResult (PyVal * list ascii) :=
  match fuel with
  | O => malformed
  | S fuel =>
      match skip_ws cs with
      | "034" :: rest =>
          match read_string rest with
          | Some (key, rest') =>
              match skip_ws rest' with
              | ":" :: rest'' =>
                  match read_value fuel depth rest'' with
                  | Returns (v, rest3) =>
                      match skip_ws rest3 with
                      | "," :: rest4 =>
                          read_members fuel depth rest4 (dict_set key v acc)
                      | "}" :: rest4 =>
                          Returns (PDict (dict_set key v acc), rest4)
                      | _ => malformed
                      end
                  | Raises e => Raises e
                  end
              | _ => malformed
              end
          | None => malformed
          end
      | _ => malformed
      end
  end.

Definition decode (s : string) : PyResult PyVal :=
  let cs := list_ascii_of_string s in
  match read_value (2 * length cs + 2) 0 cs with
  | Returns (v, rest) =>
      match skip_ws rest with
      | [] => Returns v
      | _ :: _ => Raises (JSONDecodeError "Extra data")
      end
  | Raises e => Raises e
  end.

Fixpoint contains_char (c : ascii) (s : string) : bool :=
  match s with
  | EmptyString => false
  | String d rest => if Ascii.eqb c d then true else contains_char c rest
  end.

Fixpoint escape_text (quote : ascii) (s : string) : string :=
  match s with
  | EmptyString => EmptyString
  | String c rest =>
      let tail := escape_text quote rest in
      if Ascii.eqb c "\" then String "\" (String "\" tail)
      else if Ascii.eqb c quote then String "\" (String c tail)
      else if Ascii.eqb c "010" then String "\" (String "n" tail)
      else if Ascii.eqb c "013" then String "\" (String "r" tail)
      else if Ascii.eqb c "009" then String "\" (String "t" tail)
      else String c tail
  end.

(** [repr] of a [str]: single quotes, unless the text has a single quote
    and no double quote. *)
Definition repr_text (s : string) : string :=
  let quote :=
    if contains_char "'" s && negb (contains_char "034" s)
    then "034" else "'" in
  String quote (escape_text quote s +:+ String quote EmptyString).

Local Open Scope string_scope.

Fixpoint repr (v : PyVal) : string :=
  match v with
  | PNone => "None"
  | PBool true => "True"
  | PBool false => "False"
  | PInt z => str_int z
  | PStr s => repr_text s
  | PList items => "[" +:+ join ", " (map repr items) +:+ "]"
  | PDict entries =>
      "{" +:+ join ", "
                (map (fun entry => repr_text (fst entry) +:+ ": "
                                   +:+ repr (snd entry)) entries)
      +:+ "}"
  end.

#[export] Instance runtime : PyRuntime := {
  py_repr := repr;
  json_loads := decode
}.

End RefRuntime.

(** ** Vocabulary of the specification *)

(** The hits of a result set: each document with its metadata, as the
    formatting loop pairs them. *)
Definition hits (results : SearchResults) : list (string * HitMetadata) :=
  zip (documents results) (metadata results).

(** The title a hit is shown under. *)
Definition hit_title (meta : HitMetadata) : string :=
  default "unknown" (course_title meta).

(** The citation of a hit, in the specification's words: the title, with
    the lesson when the hit has one, and the link the store resolves. *)
Definition hit_source (st : VectorStore) (meta : HitMetadata) : Source :=
  match lesson_number meta with
  | Some n =>
      {| text := hit_title meta +:+ " - Lesson " +:+ str_int n;
         link := get_lesson_link st (hit_title meta) n |}
  | None => {| text := hit_title meta; link := None |}
  end.

(** The rendering of a hit: a bracketed header, then the document. *)
Definition hit_block (hit : string * HitMetadata) : string :=
  match lesson_number (snd hit) with
  | Some n =>
      "[" +:+ hit_title (snd hit) +:+ " - Lesson " +:+ str_int n +:+ "]"
      +:+ nl +:+ fst hit
  | None => "[" +:+ hit_title (snd hit) +:+ "]" +:+ nl +:+ fst hit
  end.

(** The citation list of a tool, empty when it keeps none. *)
Definition tool_sources (tool : AnyTool) : list Source :=
  default [] (tool_last_sources tool).

(** The union of the citation lists of the registered tools, in
    registration order: what the specification says
    [collect_citations] returns. *)
Definition all_sources (self : ToolManager.t) : list Source :=
  concat (map tool_sources (dict_values (ToolManager.tools self))).

(** The lines of an outline above its lesson list. *)
Definition outline_header (course_title : string)
  (course_link : option string) (instructor : string) : list string :=
  ["Course: " +:+ course_title]
  ++ match truthy_text course_link with
     | Some url => ["Link: " +:+ url]
     | None => []
     end
  ++ ["Instructor: " +:+ instructor; EmptyString; "Lessons:"].

(** The registries a program can build: an empty one, then any sequence
    of registrations, executions and resets. *)
Inductive reachable `{PyRuntime} : ToolManager.t -> Prop :=
| reach_init : reachable ToolManager.__init__
| reach_register self tool :
    reachable self -> reachable (snd (ToolManager.register_tool self tool))
| reach_execute self tool_name kw :
    reachable self ->
    reachable (snd (ToolManager.execute_tool self tool_name kw))
| reach_reset self :
    reachable self -> reachable (ToolManager.reset_sources self).

(** Every key of the registry is the non-empty name its tool reports. *)
Definition keyed_by_name (tools : list (string * AnyTool)) : Prop :=
  Forall (fun entry =>
            name (tool_definition (snd entry)) = Some (fst entry)
            /\ fst entry <> EmptyString) tools.

(** [isinstance(v, dict)]. *)
Definition is_dict (v : PyVal) : bool :=
  match v with
  | PDict _ => true
  | _ => false
  end.

(** A lesson the outline loop gets through: a dictionary whose
    [lesson_link] is a text, or absent, or any falsy value. *)
Definition lesson_ok (lesson : PyVal) : bool :=
  match lesson with
  | PDict entries =>
      match default PNone (dict_get "lesson_link" entries) with
      | PStr _ => true
      | other => negb (py_truthy other)
      end
  | _ => false
  end.

(** The line of the outline for one lesson. *)
Definition lesson_line `{PyRuntime} (lesson : PyVal) : string :=
  match lesson with
  | PDict entries =>
      "- Lesson " +:+ py_str (default PNone (dict_get "lesson_number" entries))
      +:+ ": "
      +:+ py_str (default (PStr "Untitled") (dict_get "lesson_title" entries))
  | _ => EmptyString
  end.

(** The citation of one lesson: none unless it has a non-empty link. *)
Definition lesson_sources `{PyRuntime} (course_title : string)
  (lesson : PyVal) : list Source :=
  match lesson with
  | PDict entries =>
      match default PNone (dict_get "lesson_link" entries) with
      | PStr url =>
          if String.eqb url EmptyString then []
          else [{| text :=
                     course_title +:+ " - Lesson "
                     +:+ py_str (default PNone
                                   (dict_get "lesson_number" entries));
                   link := Some url |}]
      | _ => []
      end
  | _ => []
  end.

(** ** A small catalog to run the tools on *)

Module Demo.

Definition dq : string := String "034"%char EmptyString.
Definition quoted (s : string) : string := dq +:+ s +:+ dq.

(** [[{"lesson_number": 1, "lesson_title": "Intro"}, {"lesson_number": 3,
    "lesson_title": "Outro", "lesson_link":
    "https://example.com/lesson3"}]] *)
Definition lessons_blob : string :=
  "[{" +:+ quoted "lesson_number" +:+ ": 1, "
  +:+ quoted "lesson_title" +:+ ": " +:+ quoted "Intro"
  +:+ "}, {" +:+ quoted "lesson_number" +:+ ": 3, "
  +:+ quoted "lesson_title" +:+ ": " +:+ quoted "Outro" +:+ ", "
  +:+ quoted "lesson_link" +:+ ": " +:+ quoted "https://example.com/lesson3"
  +:+ "}]".

Definition two_hits : SearchResults :=
  {| documents :=
       ["This is content from lesson 1 about basic concepts.";
        "This is content from lesson 2 about advanced topics."];
     metadata :=
       [{| course_title := Some "Test Course"; lesson_number := Some 1%Z |};
        {| course_title := Some "Test Course"; lesson_number := Some 2%Z |}];
     error := None |}.

Definition no_hits : SearchResults :=
  {| documents := []; metadata := []; error := None |}.

Definition failed (message : string) : SearchResults :=
  {| documents := []; metadata := []; error := Some message |}.

Definition is_text (v : PyVal) (s : string) : bool :=
  match v with
  | PStr s' => String.eqb s' s
  | _ => false
  end.

(** The catalog entry of "Test Course", with the given lesson blob. *)
Definition entry (blob : string) : CourseMetadata :=
  {| title := Some "Test Course";
     course_link := Some "https://example.com/course";
     instructor := Some "Ann";
     lessons_json := Some blob |}.

(** A store with one course, "Test Course".  A query for "nothing" finds
    no hit, a query for "broken" fails, a query for "silent" fails with
    an empty message, any other query finds two hits. *)
Definition store (blob : string) : VectorStore :=
  {| search := fun query _ _ =>
       if is_text query "nothing" then no_hits
       else if is_text query "broken" then
         failed "No course found matching 'NonExistentCourse'"
       else if is_text query "silent" then failed EmptyString
       else two_hits;
     get_lesson_link := fun _ n =>
       if (n =? 1)%Z then Some "https://example.com/lesson1" else None;
     _resolve_course_name := fun course_name =>
       if is_text course_name "Test" then Some "Test Course" else None;
     get_existing_course_titles := ["Test Course"];
     course_catalog_get := fun ids =>
       match ids with
       | ["Test Course"] => Some [entry blob]
       | _ => Some []
       end |}.

(** A store whose catalog is empty. *)
Definition bare_store : VectorStore :=
  {| search := fun _ _ _ => no_hits;
     get_lesson_link := fun _ _ => None;
     _resolve_course_name := fun _ => None;
     get_existing_course_titles := [];
     course_catalog_get := fun _ => Some [] |}.

Definition search_tool : CourseSearchTool.t :=
  CourseSearchTool.__init__ (store lessons_blob).

Definition outline_tool : CourseOutlineTool.t :=
  CourseOutlineTool.__init__ (store lessons_blob).

(** A tool whose definition has no name. *)
Definition nameless : PlainTool.t :=
  {| PlainTool.definition :=
       {| name := None; description := "anonymous";
          input_schema :=
            {| schema_type := "object"; properties := []; required := [] |} |};
     PlainTool.behaviour := fun _ sources => (Returns "done", sources);
     PlainTool.last_sources := None |}.

(** A second tool that reports the name of the search tool. *)
Definition impostor : PlainTool.t :=
  {| PlainTool.definition :=
       {| name := Some "search_course_content"; description := "impostor";
          input_schema :=
            {| schema_type := "object"; properties := []; required := [] |} |};
     PlainTool.behaviour := fun _ sources => (Returns "impostor ran", sources);
     PlainTool.last_sources := None |}.

(** The citations the two tools produce on this catalog. *)
Definition lesson1 : Source :=
  {| text := "Test Course - Lesson 1";
     link := Some "https://example.com/lesson1" |}.
Definition lesson2 : Source :=
  {| text := "Test Course - Lesson 2"; link := None |}.
Definition lesson3 : Source :=
  {| text := "Test Course - Lesson 3";
     link := Some "https://example.com/lesson3" |}.

(** What [lessons_blob] decodes to. *)
Definition lessons : list PyVal :=
  [PDict [("lesson_number", PInt 1); ("lesson_title", PStr "Intro")];
   PDict [("lesson_number", PInt 3); ("lesson_title", PStr "Outro");
          ("lesson_link", PStr "https://example.com/lesson3")]].

(** A store that resolves every name to a course the catalog has no
    entry for. *)
Definition orphan_store : VectorStore :=
  {| search := fun _ _ _ => no_hits;
     get_lesson_link := fun _ _ => None;
     _resolve_course_name := fun _ => Some "Ghost Course";
     get_existing_course_titles := ["Ghost Course"];
     course_catalog_get := fun _ => None |}.

(** [text] written [n] times, Python's [text * n]. *)
Fixpoint times (text : string) (n : nat) : string :=
  match n with
  | O => EmptyString
  | S n => text +:+ times text n
  end.

(** A blob of 1100 opening brackets, and one that is an integer of 5000
    digits: [json.loads] raises on both, and not [JSONDecodeError]. *)
Definition deep_blob : string := times "[" 1100.
Definition long_integer_blob : string := times "7" 5000.

(** The registry as the application builds it: the search tool, then the
    outline tool. *)
Definition manager : ToolManager.t :=
  snd (ToolManager.register_tool
         (snd (ToolManager.register_tool ToolManager.__init__
                 (SearchTool search_tool)))
         (OutlineTool outline_tool)).

(** One turn in which the model calls both tools. *)
Definition after_turn : ToolManager.t :=
  let m1 :=
    snd (ToolManager.execute_tool (H := RefRuntime.runtime) manager
           "search_course_content" {[ "query" := PStr "basics" ]}) in
  snd (ToolManager.execute_tool (H := RefRuntime.runtime) m1
         "get_course_outline" {[ "course_name" := PStr "Test" ]}).

End Demo.

(** * Properties *)

(** ** Text *)

Lemma append_assoc (a b c : string) : (a +:+ b) +:+ c = a +:+ (b +:+ c).
Proof.
  induction a as [|ch a IH]; [reflexivity|].
  change (String ch ((a +:+ b) +:+ c) = String ch (a +:+ b +:+ c)).
  by f_equal.
Qed.

Lemma append_nil_r (a : string) : a +:+ EmptyString = a.
Proof.
  induction a as [|ch a IH]; [reflexivity|].
  change (String ch (a +:+ EmptyString) = String ch a).
  by f_equal.
Qed.

(** Joining a non-empty list of lines and one more line puts the
    separator before the last line. *)
Lemma join_snoc sep (parts : list string) (last_part : string) :
  parts <> [] ->
  join sep (parts ++ [last_part]) = join sep parts +:+ sep +:+ last_part.
Proof.
  unfold join. induction parts as [|p parts IH]; intros Hne; [done|].
  destruct parts as [|p' parts].
  - reflexivity.
  - change (String.concat sep ((p :: p' :: parts) ++ [last_part]))
      with (p +:+ sep +:+ String.concat sep ((p' :: parts) ++ [last_part])).
    rewrite IH by done.
    change (String.concat sep (p :: p' :: parts))
      with (p +:+ sep +:+ String.concat sep (p' :: parts)).
    by rewrite !append_assoc.
Qed.

(** ** The formatting loop of the search tool *)

Section SearchLoop.

Variable self : CourseSearchTool.t.

Lemma format_hit_spec formatted sources hit :
  CourseSearchTool.format_hit self (formatted, sources) hit =
  (formatted ++ [hit_block hit],
   sources ++ [hit_source (CourseSearchTool.store self) (snd hit)]).
Proof.
  destruct hit as [doc meta].
  unfold CourseSearchTool.format_hit, hit_block, hit_source, hit_title.
  simpl. destruct (lesson_number meta); simpl;
    rewrite ?append_assoc; reflexivity.
Qed.

Lemma fold_format_hit hs : forall formatted sources,
  fold_left (CourseSearchTool.format_hit self) hs (formatted, sources) =
  (formatted ++ (hit_block <$> hs),
   sources ++ ((fun hit => hit_source (CourseSearchTool.store self) (snd hit))
               <$> hs)).
Proof.
  induction hs as [|hit hs IH]; intros formatted sources.
  - cbn. by rewrite !app_nil_r.
  - cbn [fold_left fmap list_fmap].
    rewrite format_hit_spec, IH, <- !app_assoc. reflexivity.
Qed.

Lemma format_results_spec results :
  CourseSearchTool._format_results self results =
  (join (nl +:+ nl) (hit_block <$> hits results),
   {| CourseSearchTool.store := CourseSearchTool.store self;
      CourseSearchTool.last_sources :=
        (fun hit => hit_source (CourseSearchTool.store self) (snd hit))
        <$> hits results |}).
Proof.
  unfold CourseSearchTool._format_results, hits.
  rewrite fold_format_hit. reflexivity.
Qed.

End SearchLoop.

(** ** [CourseSearchTool.execute] *)

Section SearchTool.

Context `{PyRuntime}.

(** The three branches of [execute], each under the condition that
    selects it. *)
Lemma execute_error_branch self query course_name lesson_no message :
  truthy_text (error (search (CourseSearchTool.store self)
                        query course_name lesson_no)) = Some message ->
  CourseSearchTool.execute self query course_name lesson_no =
  (Returns message, self).
Proof. intros Herr. unfold CourseSearchTool.execute. by rewrite Herr. Qed.

Lemma execute_empty_branch self query course_name lesson_no :
  let results :=
    search (CourseSearchTool.store self) query course_name lesson_no in
  truthy_text (error results) = None ->
  is_empty results = true ->
  CourseSearchTool.execute self query course_name lesson_no =
  (Returns ("No relevant content found"
            +:+ ((if py_truthy course_name
                  then " in course '" +:+ py_str course_name +:+ "'"
                  else EmptyString)
                 +:+ (if py_truthy lesson_no
                      then " in lesson " +:+ py_str lesson_no
                      else EmptyString))
            +:+ "."), self).
Proof.
  intros results Herr Hempty. unfold CourseSearchTool.execute.
  fold results. rewrite Herr, Hempty.
  destruct (py_truthy course_name), (py_truthy lesson_no);
    rewrite ?append_nil_r; reflexivity.
Qed.

Lemma execute_success_branch self query course_name lesson_no :
  let results :=
    search (CourseSearchTool.store self) query course_name lesson_no in
  truthy_text (error results) = None ->
  is_empty results = false ->
  CourseSearchTool.execute self query course_name lesson_no =
  (Returns (join (nl +:+ nl) (hit_block <$> hits results)),
   {| CourseSearchTool.store := CourseSearchTool.store self;
      CourseSearchTool.last_sources :=
        (fun hit => hit_source (CourseSearchTool.store self) (snd hit))
        <$> hits results |}).
Proof.
  intros results Herr Hfull. unfold CourseSearchTool.execute.
  fold results. rewrite Herr, Hfull, format_results_spec. reflexivity.
Qed.

Lemma truthy_text_some (o : option string) (s : string) :
  o = Some s -> s <> EmptyString -> truthy_text o = Some s.
Proof.
  intros -> Hs. unfold truthy_text.
  destruct (String.eqb_spec s EmptyString); [contradiction | reflexivity].
Qed.

(** With no hit and no filter the answer is the bare message. *)
Lemma search_empty_no_filters self query :
  let results := search (CourseSearchTool.store self) query PNone PNone in
  error results = None ->
  is_empty results = true ->
  CourseSearchTool.execute self query PNone PNone =
  (Returns "No relevant content found.", self).
Proof.
  intros results Herr Hempty.
  rewrite execute_empty_branch;
    [reflexivity | by fold results; rewrite Herr | done].
Qed.

(** X13. With no hit, a non-empty course name and a non-zero lesson
    number are both named in the answer. *)
Lemma search_empty_filters_named self query (course : string) (n : Z) :
  let results :=
    search (CourseSearchTool.store self) query (PStr course) (PInt n) in
  error results = None ->
  is_empty results = true ->
  course <> EmptyString ->
  n <> 0%Z ->
  CourseSearchTool.execute self query (PStr course) (PInt n) =
  (Returns ("No relevant content found in course '" +:+ course
            +:+ "' in lesson " +:+ str_int n +:+ "."), self).
Proof.
  intros results Herr Hempty Hcourse Hn.
  rewrite execute_empty_branch; [| by fold results; rewrite Herr | done].
  simpl. destruct (String.eqb_spec course EmptyString); [contradiction|].
  destruct (Z.eqb_spec n 0); [contradiction|]. simpl.
  by rewrite !append_assoc.
Qed.

(** C3. A successful search leaves one citation per hit, in hit order
    (as many as there are documents, when every document has its
    metadata): the i-th citation shows the title of the i-th hit,
    followed by " - Lesson <n>" exactly when that hit has a lesson
    number; and the citations the tool held before the call play no part
    in the result, they are replaced. *)
Theorem search_sources_one_per_hit
  (self : CourseSearchTool.t) (query course_name lesson_no : PyVal) :
  let results :=
    search (CourseSearchTool.store self) query course_name lesson_no in
  let after :=
    snd (CourseSearchTool.execute self query course_name lesson_no) in
  truthy_text (error results) = None ->
  is_empty results = false ->
  length (CourseSearchTool.last_sources after) = length (hits results)
  /\ (length (documents results) = length (metadata results) ->
      length (CourseSearchTool.last_sources after)
      = length (documents results))
  /\ (forall (i : nat) (doc : string) (meta : HitMetadata),
        hits results !! i = Some (doc, meta) ->
        exists src : Source,
          CourseSearchTool.last_sources after !! i = Some src
          /\ text src =
             match lesson_number meta with
             | Some n => hit_title meta +:+ " - Lesson " +:+ str_int n
             | None => hit_title meta
             end)
  /\ (forall previous : list Source,
        snd (CourseSearchTool.execute
               {| CourseSearchTool.store := CourseSearchTool.store self;
                  CourseSearchTool.last_sources := previous |}
               query course_name lesson_no) = after).
Proof.
  intros results after Herr Hfull. subst after.
  rewrite execute_success_branch by done. fold results. cbn [snd].
  split; [|split; [|split]].
  - cbn. by rewrite length_fmap.
  - intros Hlen. cbn. unfold hits.
    rewrite length_fmap, length_zip. lia.
  - intros i doc meta Hi. cbn.
    rewrite list_lookup_fmap, Hi. cbn.
    eexists; split; [reflexivity|].
    unfold hit_source. by destruct (lesson_number meta).
  - intros previous.
    rewrite execute_success_branch by done. reflexivity.
Qed.

(** C4, at lesson 0.  A search for lesson 0 that finds nothing answers
    with the bare message: the lesson is not named, although the filter
    was supplied. *)
Theorem search_empty_lesson_zero (self : CourseSearchTool.t) (query : PyVal) :
  let results := search (CourseSearchTool.store self) query PNone (PInt 0) in
  error results = None ->
  is_empty results = true ->
  CourseSearchTool.execute self query PNone (PInt 0) =
  (Returns "No relevant content found.", self).
Proof.
  intros results Herr Hempty.
  rewrite execute_empty_branch;
    [reflexivity | by fold results; rewrite Herr | done].
Qed.

(** C8, amended.  When the store reports an error with a non-empty
    message, [execute] returns that message unchanged and does not
    raise; the tool itself is unchanged. *)
Theorem search_error_verbatim
  (self : CourseSearchTool.t) (query course_name lesson_no : PyVal)
  (message : string) :
  error (search (CourseSearchTool.store self) query course_name lesson_no)
  = Some message ->
  message <> EmptyString ->
  CourseSearchTool.execute self query course_name lesson_no =
  (Returns message, self).
Proof.
  intros Herr Hmsg. apply execute_error_branch.
  by apply truthy_text_some.
Qed.

(** C10. A search that ends in the error branch or in the empty-result
    branch leaves [last_sources] as it was before the call. *)
Theorem search_failure_keeps_sources
  (self : CourseSearchTool.t) (query course_name lesson_no : PyVal) :
  let results :=
    search (CourseSearchTool.store self) query course_name lesson_no in
  (exists message : string,
      error results = Some message /\ message <> EmptyString)
  \/ is_empty results = true ->
  CourseSearchTool.last_sources
    (snd (CourseSearchTool.execute self query course_name lesson_no))
  = CourseSearchTool.last_sources self.
Proof.
  intros results Hbranch.
  destruct (truthy_text (error results)) as [message|] eqn:Herr.
  - by rewrite (execute_error_branch _ _ _ _ message).
  - destruct Hbranch as [(message & Hsome & Hne) | Hempty].
    + by rewrite (truthy_text_some _ _ Hsome Hne) in Herr.
    + by rewrite execute_empty_branch.
Qed.

End SearchTool.

(** ** [CourseOutlineTool.execute] *)

Section OutlineTool.

Context `{PyRuntime}.

(** An empty lesson sequence renders the header and the line
    "- No lessons available", and leaves no citation. *)
Lemma format_outline_no_lessons self course_title course_link instructor :
  CourseOutlineTool._format_outline self course_title course_link instructor
    (PList []) =
  (Returns (join nl (outline_header course_title course_link instructor
                     ++ ["- No lessons available"])),
   {| CourseOutlineTool.store := CourseOutlineTool.store self;
      CourseOutlineTool.last_sources := [] |}).
Proof.
  unfold CourseOutlineTool._format_outline, outline_header.
  destruct (truthy_text course_link); reflexivity.
Qed.

Lemma outline_header_nonempty course_title course_link instructor :
  outline_header course_title course_link instructor <> [].
Proof. unfold outline_header. discriminate. Qed.

(** The outline of a course that resolves and has a catalog entry is
    [_format_outline] on the lessons [parse_lessons] gives, and the
    exception [parse_lessons] lets out when there is one. *)
Lemma execute_found self course_name resolved entry others :
  _resolve_course_name (CourseOutlineTool.store self) course_name
  = Some resolved ->
  resolved <> EmptyString ->
  course_catalog_get (CourseOutlineTool.store self) [resolved]
  = Some (entry :: others) ->
  CourseOutlineTool.execute self course_name =
  match CourseOutlineTool.parse_lessons (default "[]" (lessons_json entry))
  with
  | Returns lessons =>
      CourseOutlineTool._format_outline self
        (default "Unknown" (title entry)) (course_link entry)
        (default "Unknown" (instructor entry)) lessons
  | Raises e => (Raises e, self)
  end.
Proof.
  intros Hres Hne Hcat. unfold CourseOutlineTool.execute.
  by rewrite (truthy_text_some _ _ Hres Hne), Hcat.
Qed.

(** What [parse_lessons] makes of each outcome of [json.loads]. *)
Lemma parse_lessons_decoded (blob : string) (decoded : PyVal) :
  json_loads blob = Returns decoded ->
  CourseOutlineTool.parse_lessons blob = Returns decoded.
Proof.
  intros Hjson. unfold CourseOutlineTool.parse_lessons. by rewrite Hjson.
Qed.

Lemma parse_lessons_caught (blob message : string) :
  json_loads blob = Raises (JSONDecodeError message) ->
  CourseOutlineTool.parse_lessons blob = Returns (PList []).
Proof.
  intros Hjson. unfold CourseOutlineTool.parse_lessons. by rewrite Hjson.
Qed.

Lemma parse_lessons_uncaught (blob : string) (e : PyExn) :
  json_loads blob = Raises e ->
  (forall message : string, e <> JSONDecodeError message) ->
  CourseOutlineTool.parse_lessons blob = Raises e.
Proof.
  intros Hjson Hother. unfold CourseOutlineTool.parse_lessons. rewrite Hjson.
  destruct e; try reflexivity. by destruct (Hother msg).
Qed.

(** C6. When the course name does not resolve, [execute] returns a text
    and does not raise: with a non-empty catalog the text ends with all
    known titles joined by ", "; with an empty catalog it is "No courses
    available in the system.".  The tool is unchanged. *)
Theorem outline_unresolved
  (self : CourseOutlineTool.t) (course_name : PyVal) :
  let titles := get_existing_course_titles (CourseOutlineTool.store self) in
  _resolve_course_name (CourseOutlineTool.store self) course_name = None
  \/ _resolve_course_name (CourseOutlineTool.store self) course_name
     = Some EmptyString ->
  (titles <> [] ->
   CourseOutlineTool.execute self course_name =
   (Returns ("No course found matching '" +:+ py_str course_name
             +:+ "'. Available courses: " +:+ join ", " titles), self))
  /\ (titles = [] ->
      CourseOutlineTool.execute self course_name =
      (Returns "No courses available in the system.", self)).
Proof.
  intros titles Hres. unfold CourseOutlineTool.execute. fold titles.
  assert (truthy_text (_resolve_course_name (CourseOutlineTool.store self)
                         course_name) = None) as ->
    by (destruct Hres as [-> | ->]; reflexivity).
  split; intros Htitles.
  - destruct titles; [contradiction | reflexivity].
  - by rewrite Htitles.
Qed.

(** C7, amended.  When [json.loads] raises [JSONDecodeError] on the
    lesson blob of the catalog entry, [execute] does not raise: it
    renders the outline of an empty lesson sequence, whose last line is
    "- No lessons available", and leaves no citation. *)
Theorem outline_malformed_lessons
  (self : CourseOutlineTool.t) (course_name : PyVal) (resolved : string)
  (entry : CourseMetadata) (others : list CourseMetadata)
  (blob message : string) :
  _resolve_course_name (CourseOutlineTool.store self) course_name
  = Some resolved ->
  resolved <> EmptyString ->
  course_catalog_get (CourseOutlineTool.store self) [resolved]
  = Some (entry :: others) ->
  lessons_json entry = Some blob ->
  json_loads blob = Raises (JSONDecodeError message) ->
  CourseOutlineTool.execute self course_name =
  CourseOutlineTool._format_outline self
    (default "Unknown" (title entry)) (course_link entry)
    (default "Unknown" (instructor entry)) (PList [])
  /\ exists above : string,
       CourseOutlineTool.execute self course_name =
       (Returns (above +:+ nl +:+ "- No lessons available"),
        {| CourseOutlineTool.store := CourseOutlineTool.store self;
           CourseOutlineTool.last_sources := [] |}).
Proof.
  intros Hres Hne Hcat Hblob Hbad.
  rewrite (execute_found _ _ _ _ _ Hres Hne Hcat), Hblob.
  change (default "[]" (Some blob)) with blob.
  rewrite (parse_lessons_caught _ _ Hbad).
  split; [reflexivity|].
  rewrite format_outline_no_lessons.
  rewrite join_snoc by apply outline_header_nonempty.
  by eexists.
Qed.

End OutlineTool.

(** ** The registry dictionary *)

Section Dict.

Context {V : Type}.
Implicit Types (d : list (string * V)) (k : string) (v : V).

Lemma dict_get_none k d : dict_get k d = None <-> k ∉ dict_keys d.
Proof.
  induction d as [|[k' w] d IH]; simpl.
  - split; [intros _; apply not_elem_of_nil | done].
  - rewrite not_elem_of_cons.
    destruct (String.eqb_spec k' k) as [-> | Hne].
    + split; [discriminate | intros [? _]; done].
    + rewrite IH.
      split; [intros ?; split; [congruence | done] | by intros [_ ?]].
Qed.

Lemma dict_get_set_eq k v d : dict_get k (dict_set k v d) = Some v.
Proof.
  induction d as [|[k' w] d IH]; simpl.
  - by rewrite String.eqb_refl.
  - destruct (String.eqb_spec k' k) as [-> | Hne]; simpl.
    + by rewrite String.eqb_refl.
    + by destruct (String.eqb_spec k' k).
Qed.

Lemma dict_get_set_ne k k' v d :
  k' <> k -> dict_get k' (dict_set k v d) = dict_get k' d.
Proof.
  intros Hne. induction d as [|[k0 w] d IH]; simpl.
  - by destruct (String.eqb_spec k k'); [congruence|].
  - destruct (String.eqb_spec k0 k) as [-> | Hk]; simpl.
    + by destruct (String.eqb_spec k k'); [congruence|].
    + by rewrite IH.
Qed.

(** Assigning to a key that is present keeps the keys and their order. *)
Lemma dict_keys_set_present k v d :
  dict_get k d <> None -> dict_keys (dict_set k v d) = dict_keys d.
Proof.
  induction d as [|[k0 w] d IH]; simpl; [done|].
  destruct (String.eqb_spec k0 k) as [-> | Hk]; simpl; [done|].
  intros Hin. by rewrite <- IH.
Qed.

(** Assigning to a key that is absent adds it after all others. *)
Lemma dict_set_absent k v d :
  dict_get k d = None -> dict_set k v d = d ++ [(k, v)].
Proof.
  induction d as [|[k0 w] d IH]; simpl; [done|].
  destruct (String.eqb_spec k0 k); [discriminate|].
  intros Hd. by rewrite IH.
Qed.

End Dict.

(** ** [ToolManager] *)

Section Manager.

Implicit Types (self : ToolManager.t) (tool : AnyTool).

(** After a reset no tool shows a citation. *)
Lemma tool_reset_sources_empty tool :
  tool_sources (tool_reset_sources tool) = [].
Proof.
  destruct tool as [s | o | p]; try reflexivity.
  unfold tool_sources. simpl.
  by destruct (PlainTool.last_sources p) eqn:Hp; simpl; rewrite ?Hp.
Qed.

(** The loop of [get_last_sources] skips the tools that show no
    citation. *)
Lemma first_sources_skip (quiet rest : list AnyTool) :
  Forall (fun tool => tool_sources tool = []) quiet ->
  ToolManager.first_sources (quiet ++ rest) = ToolManager.first_sources rest.
Proof.
  induction 1 as [|tool quiet Htool _ IH]; [reflexivity|].
  simpl. unfold tool_sources in Htool.
  destruct (tool_last_sources tool) as [[|s more]|];
    [done | discriminate | done].
Qed.

Lemma first_sources_hit tool (rest : list AnyTool) :
  tool_sources tool <> [] ->
  ToolManager.first_sources (tool :: rest) = tool_sources tool.
Proof.
  unfold tool_sources. simpl.
  by destruct (tool_last_sources tool) as [[|s more]|].
Qed.

(** C1, amended.  [register_tool] raises [ValueError] at once, and
    leaves the registry as it was, for every tool whose definition has no
    name or an empty one.  Every other tool is registered under its name:
    the other names keep their tools; when the name was registered
    already the new tool takes the place of the old one, the names and
    their order staying as they were; a new name goes last. *)
Theorem register_tool_spec self tool :
  (name (tool_definition tool) = None
   \/ name (tool_definition tool) = Some EmptyString ->
   ToolManager.register_tool self tool =
   (Raises (ValueError "Tool must have a 'name' in its definition"), self))
  /\ (forall n : string,
        name (tool_definition tool) = Some n ->
        n <> EmptyString ->
        let after := snd (ToolManager.register_tool self tool) in
        fst (ToolManager.register_tool self tool) = Returns tt
        /\ dict_get n (ToolManager.tools after) = Some tool
        /\ (forall other : string,
              other <> n ->
              dict_get other (ToolManager.tools after)
              = dict_get other (ToolManager.tools self))
        /\ (forall old : AnyTool,
              dict_get n (ToolManager.tools self) = Some old ->
              dict_keys (ToolManager.tools after)
              = dict_keys (ToolManager.tools self))
        /\ (dict_get n (ToolManager.tools self) = None ->
            ToolManager.tools after = ToolManager.tools self ++ [(n, tool)])).
Proof.
  unfold ToolManager.register_tool. split.
  - by intros [-> | ->].
  - intros n Hn Hne. rewrite (truthy_text_some _ _ Hn Hne). cbn.
    split; [reflexivity|]. split; [apply dict_get_set_eq|].
    split; [|split].
    + intros other Hother. by apply dict_get_set_ne.
    + intros old Hold. apply dict_keys_set_present. by rewrite Hold.
    + apply dict_set_absent.
Qed.

(** C2, amended.  [get_last_sources] returns the citation list of the
    first tool, in registration order, whose list is not empty, and the
    empty list when every tool's list is empty. *)
Theorem get_last_sources_first_nonempty self :
  (forall (before after : list (string * AnyTool)) (key : string) tool,
      ToolManager.tools self = before ++ (key, tool) :: after ->
      Forall (fun entry => tool_sources (snd entry) = []) before ->
      tool_sources tool <> [] ->
      ToolManager.get_last_sources self = tool_sources tool)
  /\ (Forall (fun entry => tool_sources (snd entry) = [])
             (ToolManager.tools self) ->
      ToolManager.get_last_sources self = []).
Proof.
  unfold ToolManager.get_last_sources, dict_values. split.
  - intros before after key tool -> Hquiet Htool.
    rewrite map_app. cbn [map snd].
    rewrite first_sources_skip by (by apply Forall_map).
    by apply first_sources_hit.
  - intros Hquiet.
    rewrite <- (app_nil_r (map snd (ToolManager.tools self))).
    by rewrite first_sources_skip by (by apply Forall_map).
Qed.

(** C9. Whatever the registry holds, [reset_sources] followed by
    [get_last_sources] gives the empty list. *)
Theorem reset_then_get_last_sources self :
  ToolManager.get_last_sources (ToolManager.reset_sources self) = [].
Proof.
  unfold ToolManager.get_last_sources, ToolManager.reset_sources, dict_values.
  cbn [ToolManager.tools].
  rewrite <- (app_nil_r (map snd _)).
  rewrite first_sources_skip; [reflexivity|].
  apply Forall_map, Forall_map, Forall_forall. intros entry _. cbn.
  apply tool_reset_sources_empty.
Qed.

Context `{PyRuntime}.

(** C5. [execute_tool] on a name that is not registered returns the text
    "Tool '<name>' not found", raises nothing and leaves the registry as
    it was; on a registered name its outcome is the outcome of that
    tool's [execute] on the same arguments. *)
Theorem execute_tool_spec self (tool_name : string) (kw : kwargs) :
  (tool_name ∉ dict_keys (ToolManager.tools self) ->
   ToolManager.execute_tool self tool_name kw =
   (Returns ("Tool '" +:+ tool_name +:+ "' not found"), self))
  /\ (forall tool,
        dict_get tool_name (ToolManager.tools self) = Some tool ->
        fst (ToolManager.execute_tool self tool_name kw)
        = fst (tool_execute tool kw)).
Proof.
  unfold ToolManager.execute_tool. split.
  - intros Habsent. apply dict_get_none in Habsent. by rewrite Habsent.
  - intros tool ->. by destruct (tool_execute tool kw).
Qed.

End Manager.

(** ** The properties at work on the small catalog *)

(** The scenario of the specification: two hits, lessons 1 and 2, one
    link resolved and one missing. *)
Example search_two_hits :
  CourseSearchTool.execute (H := RefRuntime.runtime) Demo.search_tool
    (PStr "basics") PNone PNone =
  (Returns
     ("[Test Course - Lesson 1]" +:+ nl
      +:+ "This is content from lesson 1 about basic concepts."
      +:+ nl +:+ nl +:+ "[Test Course - Lesson 2]" +:+ nl
      +:+ "This is content from lesson 2 about advanced topics."),
   {| CourseSearchTool.store := Demo.store Demo.lessons_blob;
      CourseSearchTool.last_sources := [Demo.lesson1; Demo.lesson2] |}).
Proof. reflexivity. Qed.

Example search_no_match_in_course :
  fst (CourseSearchTool.execute (H := RefRuntime.runtime) Demo.search_tool
         (PStr "nothing") (PStr "MCP") PNone)
  = Returns "No relevant content found in course 'MCP'.".
Proof. reflexivity. Qed.

Example outline_of_test_course :
  CourseOutlineTool.execute (H := RefRuntime.runtime) Demo.outline_tool
    (PStr "Test") =
  (Returns
     (join nl ["Course: Test Course"; "Link: https://example.com/course";
               "Instructor: Ann"; EmptyString; "Lessons:";
               "- Lesson 1: Intro"; "- Lesson 3: Outro"]),
   {| CourseOutlineTool.store := Demo.store Demo.lessons_blob;
      CourseOutlineTool.last_sources := [Demo.lesson3] |}).
Proof. vm_compute. reflexivity. Qed.

(** A blob that decodes to something other than a list of objects is
    not a decoding failure: the formatting loop raises on it. *)
Example outline_of_ill_shaped_lessons :
  fst (CourseOutlineTool.execute (H := RefRuntime.runtime)
         (CourseOutlineTool.__init__ (Demo.store "[1]")) (PStr "Test"))
  = Raises (AttributeError "object has no attribute 'get'").
Proof. vm_compute. reflexivity. Qed.

(** C1, as stated, fails: a second tool under the name of the search
    tool is accepted, and takes the place of the search tool. *)
Lemma register_duplicate_replaces :
  dict_get "search_course_content" (ToolManager.tools Demo.manager)
  = Some (SearchTool Demo.search_tool)
  /\ fst (ToolManager.register_tool Demo.manager (OtherTool Demo.impostor))
     = Returns tt
  /\ dict_get "search_course_content"
       (ToolManager.tools
          (snd (ToolManager.register_tool Demo.manager
                  (OtherTool Demo.impostor))))
     = Some (OtherTool Demo.impostor).
Proof. repeat split. Qed.

(** C2, as stated, fails: after a turn in which the search tool and the
    outline tool both produced citations, [get_last_sources] returns the
    citations of the search tool alone, not the union. *)
Lemma get_last_sources_not_union :
  (tool_sources <$>
     dict_get "search_course_content" (ToolManager.tools Demo.after_turn))
  = Some [Demo.lesson1; Demo.lesson2]
  /\ (tool_sources <$>
        dict_get "get_course_outline" (ToolManager.tools Demo.after_turn))
     = Some [Demo.lesson3]
  /\ all_sources Demo.after_turn = [Demo.lesson1; Demo.lesson2; Demo.lesson3]
  /\ ToolManager.get_last_sources Demo.after_turn = [Demo.lesson1; Demo.lesson2]
  /\ ToolManager.get_last_sources Demo.after_turn
     <> all_sources Demo.after_turn.
Proof.
  split; [vm_compute; reflexivity|].
  split; [vm_compute; reflexivity|].
  split; [vm_compute; reflexivity|].
  split; [vm_compute; reflexivity|].
  vm_compute. discriminate.
Qed.

(** C7, as stated, fails: on a blob nested beyond the recursion limit
    [json.loads] raises [RecursionError], which the [except] clause does
    not catch; [execute] raises it instead of rendering the outline of
    an empty lesson sequence. *)
Lemma outline_deep_blob_raises :
  exists message : string,
    json_loads (PyRuntime := RefRuntime.runtime) Demo.deep_blob
    = Raises (RecursionError message)
    /\ CourseOutlineTool.execute (H := RefRuntime.runtime)
         (CourseOutlineTool.__init__ (Demo.store Demo.deep_blob))
         (PStr "Test")
       = (Raises (RecursionError message),
          CourseOutlineTool.__init__ (Demo.store Demo.deep_blob)).
Proof. eexists. split; vm_compute; reflexivity. Qed.

(** C8, as stated, fails: an error with an empty message is not
    returned; the search is answered as one without hits. *)
Lemma search_empty_error_not_returned :
  error (search (CourseSearchTool.store Demo.search_tool)
           (PStr "silent") PNone PNone) = Some EmptyString
  /\ fst (CourseSearchTool.execute (H := RefRuntime.runtime) Demo.search_tool
            (PStr "silent") PNone PNone)
     = Returns "No relevant content found."
  /\ fst (CourseSearchTool.execute (H := RefRuntime.runtime) Demo.search_tool
            (PStr "silent") PNone PNone)
     <> Returns EmptyString.
Proof. repeat split. discriminate. Qed.


(** ** The theorems applied on the small catalog *)

Lemma search_sources_one_per_hit_witness :
  truthy_text (error (search (Demo.store Demo.lessons_blob)
                        (PStr "basics") PNone PNone)) = None
  /\ is_empty (search (Demo.store Demo.lessons_blob)
                 (PStr "basics") PNone PNone) = false
  /\ length (CourseSearchTool.last_sources
               (snd (CourseSearchTool.execute (H := RefRuntime.runtime)
                       Demo.search_tool (PStr "basics") PNone PNone))) = 2.
Proof.
  split; [reflexivity|]. split; [reflexivity|].
  exact (proj1 (@search_sources_one_per_hit RefRuntime.runtime
                  Demo.search_tool (PStr "basics") PNone PNone
                  eq_refl eq_refl)).
Defined.

Lemma search_empty_lesson_zero_witness :
  error (search (Demo.store Demo.lessons_blob)
           (PStr "nothing") PNone (PInt 0)) = None
  /\ is_empty (search (Demo.store Demo.lessons_blob)
                 (PStr "nothing") PNone (PInt 0)) = true
  /\ CourseSearchTool.execute (H := RefRuntime.runtime) Demo.search_tool
       (PStr "nothing") PNone (PInt 0)
     = (Returns "No relevant content found.", Demo.search_tool).
Proof.
  split; [reflexivity|]. split; [reflexivity|].
  exact (@search_empty_lesson_zero RefRuntime.runtime Demo.search_tool
           (PStr "nothing") eq_refl eq_refl).
Defined.

Lemma search_error_verbatim_witness :
  error (search (Demo.store Demo.lessons_blob) (PStr "broken") PNone PNone)
  = Some "No course found matching 'NonExistentCourse'"
  /\ CourseSearchTool.execute (H := RefRuntime.runtime) Demo.search_tool
       (PStr "broken") PNone PNone
     = (Returns "No course found matching 'NonExistentCourse'",
        Demo.search_tool).
Proof.
  split; [reflexivity|].
  apply (@search_error_verbatim RefRuntime.runtime Demo.search_tool
           (PStr "broken") PNone PNone);
    [reflexivity | discriminate].
Defined.

(** The citations of a successful search are still there after a search
    that finds nothing. *)
Lemma search_failure_keeps_sources_witness :
  is_empty (search (Demo.store Demo.lessons_blob)
              (PStr "nothing") PNone PNone) = true
  /\ CourseSearchTool.last_sources
       (snd (CourseSearchTool.execute (H := RefRuntime.runtime)
               (snd (CourseSearchTool.execute (H := RefRuntime.runtime)
                       Demo.search_tool (PStr "basics") PNone PNone))
               (PStr "nothing") PNone PNone))
     = [Demo.lesson1; Demo.lesson2].
Proof.
  split; [reflexivity|].
  apply (@search_failure_keeps_sources RefRuntime.runtime
           (snd (CourseSearchTool.execute (H := RefRuntime.runtime)
                   Demo.search_tool (PStr "basics") PNone PNone))
           (PStr "nothing") PNone PNone).
  right. reflexivity.
Defined.

Lemma outline_unresolved_witness :
  _resolve_course_name (Demo.store Demo.lessons_blob) (PStr "Physics") = None
  /\ CourseOutlineTool.execute (H := RefRuntime.runtime) Demo.outline_tool
       (PStr "Physics")
     = (Returns
          "No course found matching 'Physics'. Available courses: Test Course",
        Demo.outline_tool)
  /\ CourseOutlineTool.execute (H := RefRuntime.runtime)
       (CourseOutlineTool.__init__ Demo.bare_store) (PStr "Physics")
     = (Returns "No courses available in the system.",
        CourseOutlineTool.__init__ Demo.bare_store).
Proof.
  split; [reflexivity|]. split.
  - apply (@outline_unresolved RefRuntime.runtime Demo.outline_tool
             (PStr "Physics")); [left; reflexivity | discriminate].
  - apply (@outline_unresolved RefRuntime.runtime
             (CourseOutlineTool.__init__ Demo.bare_store) (PStr "Physics"));
      [left; reflexivity | reflexivity].
Defined.

Lemma outline_malformed_lessons_witness :
  (exists message : string,
      json_loads (PyRuntime := RefRuntime.runtime) "{bad"
      = Raises (JSONDecodeError message))
  /\ exists above : string,
       CourseOutlineTool.execute (H := RefRuntime.runtime)
         (CourseOutlineTool.__init__ (Demo.store "{bad")) (PStr "Test")
       = (Returns (above +:+ nl +:+ "- No lessons available"),
          CourseOutlineTool.__init__ (Demo.store "{bad")).
Proof.
  split; [by eexists|].
  apply (@outline_malformed_lessons RefRuntime.runtime
           (CourseOutlineTool.__init__ (Demo.store "{bad")) (PStr "Test")
           "Test Course" (Demo.entry "{bad") [] "{bad" "Expecting value");
    [reflexivity | discriminate | reflexivity | reflexivity | reflexivity].
Defined.

Lemma register_tool_spec_witness :
  ToolManager.register_tool Demo.manager (OtherTool Demo.nameless)
  = (Raises (ValueError "Tool must have a 'name' in its definition"),
     Demo.manager)
  /\ fst (ToolManager.register_tool Demo.manager (OtherTool Demo.impostor))
     = Returns tt
  /\ dict_keys
       (ToolManager.tools
          (snd (ToolManager.register_tool Demo.manager
                  (OtherTool Demo.impostor))))
     = ["search_course_content"; "get_course_outline"].
Proof.
  split.
  - apply (proj1 (register_tool_spec Demo.manager (OtherTool Demo.nameless))).
    left. reflexivity.
  - destruct (proj2 (register_tool_spec Demo.manager (OtherTool Demo.impostor))
                "search_course_content" eq_refl ltac:(discriminate))
      as (Hok & _ & _ & Hkeys & _).
    split; [exact Hok|].
    exact (Hkeys (SearchTool Demo.search_tool) eq_refl).
Defined.

Lemma get_last_sources_first_nonempty_witness :
  tool_sources
    (OutlineTool {| CourseOutlineTool.store := Demo.store Demo.lessons_blob;
                    CourseOutlineTool.last_sources := [Demo.lesson3] |})
  = [Demo.lesson3]
  /\ ToolManager.get_last_sources Demo.after_turn
     = [Demo.lesson1; Demo.lesson2]
  /\ ToolManager.get_last_sources Demo.manager = [].
Proof.
  split; [reflexivity|]. split.
  - apply (proj1 (get_last_sources_first_nonempty Demo.after_turn) []
             [("get_course_outline",
               OutlineTool
                 {| CourseOutlineTool.store := Demo.store Demo.lessons_blob;
                    CourseOutlineTool.last_sources := [Demo.lesson3] |})]
             "search_course_content"
             (SearchTool
                {| CourseSearchTool.store := Demo.store Demo.lessons_blob;
                   CourseSearchTool.last_sources :=
                     [Demo.lesson1; Demo.lesson2] |}));
      [vm_compute; reflexivity | constructor | discriminate].
  - apply (proj2 (get_last_sources_first_nonempty Demo.manager)).
    repeat constructor.
Defined.

Lemma execute_tool_spec_witness :
  ToolManager.execute_tool (H := RefRuntime.runtime) Demo.manager
    "summarise" ∅
  = (Returns "Tool 'summarise' not found", Demo.manager)
  /\ fst (ToolManager.execute_tool (H := RefRuntime.runtime) Demo.manager
            "search_course_content" {[ "query" := PStr "nothing" ]})
     = Returns "No relevant content found.".
Proof.
  split.
  - apply (proj1 (@execute_tool_spec RefRuntime.runtime Demo.manager
                    "summarise" ∅)).
    apply dict_get_none. reflexivity.
  - rewrite (proj2 (@execute_tool_spec RefRuntime.runtime Demo.manager
                      "search_course_content"
                      {[ "query" := PStr "nothing" ]})
               (SearchTool Demo.search_tool) eq_refl).
    vm_compute. reflexivity.
Defined.

(** * Further properties of the code *)

(** ** [CourseSearchTool]: the text and the links of a successful search *)

Section SearchToolMore.

Context `{PyRuntime}.

(** X1. The text of a successful search is the rendering of each hit, a
    bracketed header and the document below it, in hit order, with a
    blank line between two hits. *)
Theorem search_success_text
  (self : CourseSearchTool.t) (query course_name lesson_no : PyVal) :
  let results :=
    search (CourseSearchTool.store self) query course_name lesson_no in
  truthy_text (error results) = None ->
  is_empty results = false ->
  fst (CourseSearchTool.execute self query course_name lesson_no)
  = Returns (join (nl +:+ nl) (hit_block <$> hits results)).
Proof.
  intros results Herr Hfull.
  by rewrite execute_success_branch.
Qed.

(** X2. After a successful search the i-th citation carries the link the
    store resolves for the title and lesson number of the i-th hit, and
    no link when that hit has no lesson number. *)
Theorem search_source_links
  (self : CourseSearchTool.t) (query course_name lesson_no : PyVal) :
  let results :=
    search (CourseSearchTool.store self) query course_name lesson_no in
  let after :=
    snd (CourseSearchTool.execute self query course_name lesson_no) in
  truthy_text (error results) = None ->
  is_empty results = false ->
  forall (i : nat) (doc : string) (meta : HitMetadata),
    hits results !! i = Some (doc, meta) ->
    exists src : Source,
      CourseSearchTool.last_sources after !! i = Some src
      /\ link src =
         match lesson_number meta with
         | Some n =>
             get_lesson_link (CourseSearchTool.store self) (hit_title meta) n
         | None => None
         end.
Proof.
  intros results after Herr Hfull i doc meta Hi. subst after.
  rewrite execute_success_branch by done. fold results. cbn.
  rewrite list_lookup_fmap, Hi. cbn.
  eexists; split; [reflexivity|].
  unfold hit_source. by destruct (lesson_number meta).
Qed.

End SearchToolMore.

(** ** [CourseOutlineTool]: the lesson loop *)

Section OutlineToolMore.

Context `{PyRuntime}.

Lemma format_lesson_ok course_title formatted sources lesson :
  lesson_ok lesson = true ->
  CourseOutlineTool.format_lesson course_title (formatted, sources) lesson
  = Returns (formatted ++ [lesson_line lesson],
             sources ++ lesson_sources course_title lesson).
Proof.
  destruct lesson as [| | | | |entries]; try discriminate.
  unfold lesson_ok, lesson_line, lesson_sources,
    CourseOutlineTool.format_lesson, py_get.
  cbn [mbind PyResult_bind].
  destruct (default PNone (dict_get "lesson_link" entries))
    as [|b|z|url|items|members] eqn:Hlink; cbn [py_truthy].
  - intros _. by rewrite app_nil_r.
  - intros Hb. apply negb_true_iff in Hb. rewrite Hb. by rewrite app_nil_r.
  - intros Hz. apply negb_true_iff in Hz. rewrite Hz. by rewrite app_nil_r.
  - intros _. destruct (String.eqb url EmptyString); cbn [negb].
    + by rewrite app_nil_r.
    + reflexivity.
  - intros Hi. apply negb_true_iff in Hi. rewrite Hi. by rewrite app_nil_r.
  - intros Hm. apply negb_true_iff in Hm. rewrite Hm. by rewrite app_nil_r.
Qed.

Lemma for_each_lessons_ok course_title lessons : forall formatted sources,
  Forall (fun lesson => lesson_ok lesson = true) lessons ->
  for_each (CourseOutlineTool.format_lesson course_title) lessons
    (formatted, sources)
  = Returns (formatted ++ (lesson_line <$> lessons),
             sources ++ concat (lesson_sources course_title <$> lessons)).
Proof.
  induction lessons as [|lesson lessons IH]; intros formatted sources Hok.
  - cbn. by rewrite !app_nil_r.
  - apply Forall_cons in Hok as [Hlesson Hrest].
    cbn [for_each]. rewrite format_lesson_ok by done.
    rewrite IH by done. cbn [fmap list_fmap concat].
    by rewrite <- !app_assoc.
Qed.

Lemma format_lesson_not_dict course_title acc lesson :
  is_dict lesson = false ->
  exists e, CourseOutlineTool.format_lesson course_title acc lesson
            = Raises e.
Proof.
  destruct acc as [formatted sources].
  destruct lesson; try discriminate; intros _; by eexists.
Qed.

Lemma for_each_lessons_not_dict course_title lessons : forall acc,
  Exists (fun lesson => is_dict lesson = false) lessons ->
  exists e,
    for_each (CourseOutlineTool.format_lesson course_title) lessons acc
    = Raises e.
Proof.
  induction lessons as [|lesson lessons IH]; intros acc Hbad.
  - by apply Exists_nil in Hbad.
  - cbn [for_each].
    destruct (CourseOutlineTool.format_lesson course_title acc lesson)
      as [acc'|e] eqn:Hstep; [|by eexists].
    apply Exists_cons in Hbad as [Hhead | Htail]; [|by apply IH].
    destruct (format_lesson_not_dict course_title acc lesson Hhead)
      as [e He].
    congruence.
Qed.

(** X3. For a course that resolves, whose lesson blob decodes to a
    non-empty list of lessons the loop gets through (dictionaries whose
    link is a text or falsy), [execute] returns the header followed by
    one line per lesson in catalog order, and replaces its citations by
    one citation per lesson that has a non-empty link, in the same
    order. *)
Theorem outline_lessons_rendered
  (self : CourseOutlineTool.t) (course_name : PyVal) (resolved : string)
  (entry : CourseMetadata) (others : list CourseMetadata)
  (lessons : list PyVal) :
  _resolve_course_name (CourseOutlineTool.store self) course_name
  = Some resolved ->
  resolved <> EmptyString ->
  course_catalog_get (CourseOutlineTool.store self) [resolved]
  = Some (entry :: others) ->
  json_loads (default "[]" (lessons_json entry))
  = Returns (PList lessons) ->
  lessons <> [] ->
  Forall (fun lesson => lesson_ok lesson = true) lessons ->
  CourseOutlineTool.execute self course_name =
  (Returns
     (join nl (outline_header (default "Unknown" (title entry))
                 (course_link entry) (default "Unknown" (instructor entry))
               ++ (lesson_line <$> lessons))),
   {| CourseOutlineTool.store := CourseOutlineTool.store self;
      CourseOutlineTool.last_sources :=
        concat (lesson_sources (default "Unknown" (title entry))
                <$> lessons) |}).
Proof.
  intros Hres Hne Hcat Hjson Hsome Hok.
  rewrite (execute_found _ _ _ _ _ Hres Hne Hcat).
  rewrite (parse_lessons_decoded _ _ Hjson).
  unfold CourseOutlineTool._format_outline.
  destruct lessons as [|lesson lessons]; [done|].
  cbn [py_truthy py_iter mbind PyResult_bind].
  rewrite for_each_lessons_ok by done.
  unfold outline_header.
  destruct (truthy_text (course_link entry)); reflexivity.
Qed.

(** X4. For a course that resolves, whose lesson blob decodes to a
    truthy value that is not a list of dictionaries (a number, a text, a
    dictionary, or a list with an item that is not a dictionary),
    [execute] raises, and the tool keeps the citations it had. *)
Theorem outline_ill_shaped_raises
  (self : CourseOutlineTool.t) (course_name : PyVal) (resolved : string)
  (entry : CourseMetadata) (others : list CourseMetadata)
  (decoded : PyVal) :
  _resolve_course_name (CourseOutlineTool.store self) course_name
  = Some resolved ->
  resolved <> EmptyString ->
  course_catalog_get (CourseOutlineTool.store self) [resolved]
  = Some (entry :: others) ->
  json_loads (default "[]" (lessons_json entry)) = Returns decoded ->
  py_truthy decoded = true ->
  match decoded with
  | PList items => Exists (fun item => is_dict item = false) items
  | _ => True
  end ->
  exists e : PyExn,
    CourseOutlineTool.execute self course_name = (Raises e, self).
Proof.
  intros Hres Hne Hcat Hjson Htruthy Hshape.
  rewrite (execute_found _ _ _ _ _ Hres Hne Hcat).
  rewrite (parse_lessons_decoded _ _ Hjson).
  unfold CourseOutlineTool._format_outline. rewrite Htruthy.
  set (acc := (_, _) : list string * list Source).
  assert (exists e,
             (items ← py_iter decoded;
              for_each (CourseOutlineTool.format_lesson
                          (default "Unknown" (title entry))) items acc)
             = Raises e) as [e He].
  { destruct decoded as [| b | z | s | items | members];
      try (by eexists).
    - destruct s as [|c s]; [discriminate|].
      cbn [py_iter mbind PyResult_bind].
      apply for_each_lessons_not_dict. cbn. by left.
    - cbn [py_iter mbind PyResult_bind].
      by apply for_each_lessons_not_dict.
    - destruct members as [|[k v] members]; [discriminate|].
      cbn [py_iter mbind PyResult_bind].
      apply for_each_lessons_not_dict. cbn. by left. }
  exists e. subst acc. by rewrite He.
Qed.

(** X5. For a course that resolves but for which the catalog returns no
    metadata, [execute] returns the text "Error: Unable to retrieve
    metadata for '<title>'" with the resolved title, raises nothing and
    leaves the tool as it was. *)
Theorem outline_metadata_missing
  (self : CourseOutlineTool.t) (course_name : PyVal) (resolved : string) :
  _resolve_course_name (CourseOutlineTool.store self) course_name
  = Some resolved ->
  resolved <> EmptyString ->
  course_catalog_get (CourseOutlineTool.store self) [resolved] = None
  \/ course_catalog_get (CourseOutlineTool.store self) [resolved] = Some [] ->
  CourseOutlineTool.execute self course_name =
  (Returns ("Error: Unable to retrieve metadata for '" +:+ resolved +:+ "'"),
   self).
Proof.
  intros Hres Hne Hcat. unfold CourseOutlineTool.execute.
  rewrite (truthy_text_some _ _ Hres Hne).
  by destruct Hcat as [-> | ->].
Qed.

End OutlineToolMore.

(** ** More on the registry dictionary *)

Section DictMore.

Context {V : Type}.
Implicit Types (d : list (string * V)) (k : string) (v : V).

Lemma dict_get_some_elem k v d : dict_get k d = Some v -> (k, v) ∈ d.
Proof.
  induction d as [|[k0 w] d IH]; simpl; [done|].
  destruct (String.eqb_spec k0 k) as [-> | Hk].
  - intros [= ->]. apply elem_of_cons. by left.
  - intros Hd. apply elem_of_cons. right. by apply IH.
Qed.

(** An assignment keeps every property of entries that the new entry
    has. *)
Lemma dict_set_forall (Q : string * V -> Prop) k v d :
  Forall Q d -> Q (k, v) -> Forall Q (dict_set k v d).
Proof.
  intros Hd Hnew. induction Hd as [|[k0 w] d Hhead Hd IH]; simpl.
  - by constructor.
  - destruct (String.eqb_spec k0 k) as [-> | Hk]; by constructor.
Qed.

(** An assignment never makes a key appear twice. *)
Lemma dict_set_nodup k v d :
  NoDup (dict_keys d) -> NoDup (dict_keys (dict_set k v d)).
Proof.
  intros Hd. destruct (dict_get k d) as [w|] eqn:Hk.
  - rewrite dict_keys_set_present; [done | by rewrite Hk].
  - rewrite dict_set_absent by done. unfold dict_keys.
    rewrite map_app. cbn [map fst]. apply NoDup_app.
    split; [done|]. split; [|apply NoDup_singleton].
    intros k' Hin Hk'. apply list_elem_of_singleton in Hk'. subst k'.
    by apply dict_get_none in Hk.
Qed.

(** Replacing the value under a key by one with the same image under
    [f] leaves the images of the values as they were. *)
Lemma dict_set_same_image {W : Type} (f : V -> W) k v v' d :
  dict_get k d = Some v ->
  f v' = f v ->
  map f (dict_values (dict_set k v' d)) = map f (dict_values d).
Proof.
  intros Hget Himage. induction d as [|[k0 w] d IH]; simpl in *; [done|].
  destruct (String.eqb_spec k0 k) as [-> | Hk]; simpl.
  - injection Hget as ->. by rewrite Himage.
  - by rewrite IH.
Qed.

End DictMore.

(** ** [ToolManager]: registration order, dispatch and frames *)

Section ManagerMore.

Implicit Types (self : ToolManager.t) (tool : AnyTool).

Lemma truthy_text_inv (o : option string) (s : string) :
  truthy_text o = Some s -> o = Some s /\ s <> EmptyString.
Proof.
  destruct o as [s'|]; [|discriminate]. unfold truthy_text.
  destruct (String.eqb_spec s' EmptyString); [discriminate|].
  intros [= <-]. by split.
Qed.

Lemma tool_reset_sources_definition tool :
  tool_definition (tool_reset_sources tool) = tool_definition tool.
Proof.
  destruct tool as [s | o | p]; try reflexivity.
  simpl. by destruct (PlainTool.last_sources p).
Qed.

Lemma reset_values self :
  dict_values (ToolManager.tools (ToolManager.reset_sources self))
  = map tool_reset_sources (dict_values (ToolManager.tools self)).
Proof.
  unfold ToolManager.reset_sources, dict_values. cbn [ToolManager.tools].
  by rewrite !map_map.
Qed.

Lemma reset_keys self :
  dict_keys (ToolManager.tools (ToolManager.reset_sources self))
  = dict_keys (ToolManager.tools self).
Proof.
  unfold ToolManager.reset_sources, dict_keys. cbn [ToolManager.tools].
  by rewrite map_map.
Qed.

Lemma first_sources_quiet (values : list AnyTool) :
  Forall (fun tool => tool_sources tool = []) values ->
  ToolManager.first_sources values = [].
Proof.
  intros Hquiet. rewrite <- (app_nil_r values).
  by rewrite first_sources_skip.
Qed.

Lemma keyed_names (tools : list (string * AnyTool)) :
  keyed_by_name tools ->
  map name (map tool_definition (dict_values tools))
  = map Some (dict_keys tools).
Proof.
  induction 1 as [|[k tool] tools [Hname _] _ IH]; [done|].
  simpl in *. by rewrite Hname, IH.
Qed.

(** X6. [reset_sources] empties the citation list of every registered
    tool, leaves the names, their order and the definitions as they
    were, and a second reset changes nothing. *)
Theorem reset_sources_spec self :
  all_sources (ToolManager.reset_sources self) = []
  /\ dict_keys (ToolManager.tools (ToolManager.reset_sources self))
     = dict_keys (ToolManager.tools self)
  /\ ToolManager.get_tool_definitions (ToolManager.reset_sources self)
     = ToolManager.get_tool_definitions self
  /\ ToolManager.reset_sources (ToolManager.reset_sources self)
     = ToolManager.reset_sources self.
Proof.
  split; [|split; [apply reset_keys|split]].
  - unfold all_sources. rewrite reset_values.
    induction (dict_values (ToolManager.tools self)) as [|tool values IH];
      [done|].
    cbn [map concat]. by rewrite tool_reset_sources_empty, IH.
  - unfold ToolManager.get_tool_definitions. rewrite reset_values, map_map.
    apply map_ext. intros tool. apply tool_reset_sources_definition.
  - unfold ToolManager.reset_sources. cbn [ToolManager.tools]. f_equal.
    rewrite map_map. apply map_ext. intros [k tool]. cbn. f_equal.
    destruct tool as [s | o | p]; try reflexivity.
    simpl. by destruct (PlainTool.last_sources p) eqn:Hp; simpl; rewrite ?Hp.
Qed.

(** X7. What [get_last_sources] returns is made of citations that some
    registered tool holds, and it is empty exactly when no registered
    tool holds a citation. *)
Theorem get_last_sources_within_union self :
  (forall s : Source,
      s ∈ ToolManager.get_last_sources self -> s ∈ all_sources self)
  /\ (ToolManager.get_last_sources self = [] <-> all_sources self = []).
Proof.
  unfold ToolManager.get_last_sources, all_sources.
  induction (dict_values (ToolManager.tools self)) as [|tool values IH];
    [done|].
  cbn [map concat ToolManager.first_sources]. unfold tool_sources at 1 3.
  destruct (tool_last_sources tool) as [[|s more]|]; cbn [default].
  - exact IH.
  - split; [|done]. intros s' Hs'. apply elem_of_app. by left.
  - exact IH.
Qed.

(** X8. A tool with a name that is not yet registered goes last in the
    list of definitions; a tool with a registered name leaves the list as
    long as it was; either way its definition is in the list. *)
Theorem register_tool_definitions self tool (n : string) :
  name (tool_definition tool) = Some n ->
  n <> EmptyString ->
  let after := snd (ToolManager.register_tool self tool) in
  (dict_get n (ToolManager.tools self) = None ->
   ToolManager.get_tool_definitions after
   = ToolManager.get_tool_definitions self ++ [tool_definition tool])
  /\ (dict_get n (ToolManager.tools self) <> None ->
      length (ToolManager.get_tool_definitions after)
      = length (ToolManager.get_tool_definitions self))
  /\ tool_definition tool ∈ ToolManager.get_tool_definitions after.
Proof.
  intros Hn Hne after. subst after.
  unfold ToolManager.register_tool, ToolManager.get_tool_definitions.
  rewrite (truthy_text_some _ _ Hn Hne). cbn [snd ToolManager.tools].
  split; [|split].
  - intros Hnew. rewrite dict_set_absent by done.
    unfold dict_values. by rewrite !map_app.
  - intros Hold. unfold dict_values. rewrite !length_map.
    rewrite <- !(length_map fst).
    change (length (dict_keys (dict_set n tool (ToolManager.tools self)))
            = length (dict_keys (ToolManager.tools self))).
    by rewrite dict_keys_set_present.
  - apply list_elem_of_fmap. exists tool. split; [done|].
    apply list_elem_of_fmap. exists (n, tool). split; [done|].
    apply dict_get_some_elem, dict_get_set_eq.
Qed.

Context `{PyRuntime}.

Lemma tool_execute_definition tool (kw : kwargs) :
  tool_definition (snd (tool_execute tool kw)) = tool_definition tool.
Proof.
  destruct tool as [s | o | p]; simpl.
  - by destruct (CourseSearchTool.call s kw).
  - by destruct (CourseOutlineTool.call o kw).
  - unfold PlainTool.call.
    by destruct (PlainTool.behaviour p kw (PlainTool.last_sources p)).
Qed.

(** X9. Once a tool is registered, [execute_tool] on the name of its
    definition runs that very tool: the key of dispatch is the name the
    definition carries. *)
Theorem register_then_dispatch self tool (n : string) (kw : kwargs) :
  name (tool_definition tool) = Some n ->
  n <> EmptyString ->
  fst (ToolManager.execute_tool
         (snd (ToolManager.register_tool self tool)) n kw)
  = fst (tool_execute tool kw).
Proof.
  intros Hn Hne.
  unfold ToolManager.register_tool, ToolManager.execute_tool.
  rewrite (truthy_text_some _ _ Hn Hne). cbn [snd ToolManager.tools].
  rewrite dict_get_set_eq. by destruct (tool_execute tool kw).
Qed.

(** X10. [execute_tool] changes at most the tool it runs: the names and
    their order, the definitions, and the tool under every other name
    are as before, and the name it was called with now holds the tool as
    its [execute] left it. *)
Theorem execute_tool_frame self (tool_name : string) (kw : kwargs) :
  let after := snd (ToolManager.execute_tool self tool_name kw) in
  dict_keys (ToolManager.tools after) = dict_keys (ToolManager.tools self)
  /\ ToolManager.get_tool_definitions after
     = ToolManager.get_tool_definitions self
  /\ (forall other : string,
        other <> tool_name ->
        dict_get other (ToolManager.tools after)
        = dict_get other (ToolManager.tools self))
  /\ (forall tool,
        dict_get tool_name (ToolManager.tools self) = Some tool ->
        dict_get tool_name (ToolManager.tools after)
        = Some (snd (tool_execute tool kw))).
Proof.
  intros after. subst after. unfold ToolManager.execute_tool.
  destruct (dict_get tool_name (ToolManager.tools self)) as [tool|] eqn:Hget.
  - pose proof (tool_execute_definition tool kw) as Hdef.
    destruct (tool_execute tool kw) as [outcome tool'] eqn:Hrun.
    cbn [snd ToolManager.tools] in *.
    split; [|split; [|split]].
    + apply dict_keys_set_present. by rewrite Hget.
    + unfold ToolManager.get_tool_definitions. cbn [ToolManager.tools].
      by apply (dict_set_same_image tool_definition _ tool).
    + intros other Hother. by apply dict_get_set_ne.
    + intros tool0 [= <-]. rewrite Hrun. apply dict_get_set_eq.
  - cbn [snd]. split; [done|]. split; [done|]. split; [done|].
    intros tool0. discriminate.
Qed.

Lemma single_tool_values (tools : list (string * AnyTool))
  (tool_name : string) tool tool' :
  dict_get tool_name tools = Some tool ->
  ToolManager.first_sources
    (dict_values
       (dict_set tool_name tool'
          (map (fun entry => (fst entry, tool_reset_sources (snd entry)))
               tools)))
  = tool_sources tool'.
Proof.
  induction tools as [|[k w] tools IH]; simpl; [done|].
  destruct (String.eqb_spec k tool_name) as [-> | Hk]; simpl.
  - intros _. unfold tool_sources.
    destruct (tool_last_sources tool') as [[|s more]|]; try reflexivity;
      apply first_sources_quiet, Forall_map, Forall_map, Forall_forall;
      intros entry _; apply tool_reset_sources_empty.
  - intros Hget.
    pose proof (tool_reset_sources_empty w) as Hw. unfold tool_sources in Hw.
    destruct (tool_last_sources (tool_reset_sources w)) as [[|s more]|];
      [by apply IH | discriminate | by apply IH].
Qed.

Lemma reset_get self (tool_name : string) tool :
  dict_get tool_name (ToolManager.tools self) = Some tool ->
  dict_get tool_name (ToolManager.tools (ToolManager.reset_sources self))
  = Some (tool_reset_sources tool).
Proof.
  unfold ToolManager.reset_sources. cbn [ToolManager.tools].
  induction (ToolManager.tools self) as [|[k w] tools IH]; simpl; [done|].
  destruct (String.eqb_spec k tool_name); [by intros [= ->] | done].
Qed.

(** X11. A turn that starts with [reset_sources] and runs one registered
    tool ends with [get_last_sources] returning exactly the citations of
    that tool after its run, wherever the tool stands in the registry. *)
Theorem single_tool_turn self (tool_name : string) (kw : kwargs) tool :
  dict_get tool_name (ToolManager.tools self) = Some tool ->
  ToolManager.get_last_sources
    (snd (ToolManager.execute_tool (ToolManager.reset_sources self)
            tool_name kw))
  = tool_sources (snd (tool_execute (tool_reset_sources tool) kw)).
Proof.
  intros Hget. unfold ToolManager.execute_tool.
  rewrite (reset_get _ _ _ Hget).
  destruct (tool_execute (tool_reset_sources tool) kw) as [outcome tool'].
  cbn [snd]. unfold ToolManager.get_last_sources. cbn [ToolManager.tools].
  by apply (single_tool_values _ _ tool).
Qed.

(** X12. In every registry a program can build, no name is registered
    twice, every tool stands under the non-empty name its own definition
    reports, and so the names of the listed definitions are exactly the
    keys of dispatch, in registration order. *)
Theorem reachable_keyed self :
  reachable self ->
  NoDup (dict_keys (ToolManager.tools self))
  /\ keyed_by_name (ToolManager.tools self)
  /\ map name (ToolManager.get_tool_definitions self)
     = map Some (dict_keys (ToolManager.tools self)).
Proof.
  intros Hreach.
  assert (NoDup (dict_keys (ToolManager.tools self))
          /\ keyed_by_name (ToolManager.tools self)) as [Hnodup Hkeyed].
  { induction Hreach as [| self tool _ [IHn IHk]
                         | self tool_name kw _ [IHn IHk]
                         | self _ [IHn IHk]].
    - split; [apply NoDup_nil_2 | constructor].
    - unfold ToolManager.register_tool.
      destruct (truthy_text (name (tool_definition tool))) as [n|] eqn:Hn;
        [|by split].
      apply truthy_text_inv in Hn as [Hn Hne]. cbn [snd ToolManager.tools].
      split; [by apply dict_set_nodup | by apply dict_set_forall].
    - unfold ToolManager.execute_tool.
      destruct (dict_get tool_name (ToolManager.tools self))
        as [tool|] eqn:Hget; [|by split].
      pose proof (tool_execute_definition tool kw) as Hdef.
      destruct (tool_execute tool kw) as [outcome tool'].
      cbn [snd ToolManager.tools] in *.
      split; [by apply dict_set_nodup|].
      apply dict_set_forall; [done|]. cbn [fst snd]. rewrite Hdef.
      apply dict_get_some_elem in Hget.
      unfold keyed_by_name in IHk. rewrite Forall_forall in IHk.
      exact (IHk _ Hget).
    - split; [by rewrite reset_keys|].
      unfold ToolManager.reset_sources, keyed_by_name.
      cbn [ToolManager.tools]. apply Forall_map.
      eapply Forall_impl; [exact IHk|]. intros [k tool] Hk. cbn in *.
      by rewrite tool_reset_sources_definition. }
  split; [done|]. split; [done|]. by apply keyed_names.
Qed.

End ManagerMore.

(** ** The further properties applied on the small catalog *)

Lemma search_success_text_witness :
  fst (CourseSearchTool.execute (H := RefRuntime.runtime) Demo.search_tool
         (PStr "basics") PNone PNone)
  = Returns
      ("[Test Course - Lesson 1]" +:+ nl
       +:+ "This is content from lesson 1 about basic concepts."
       +:+ nl +:+ nl +:+ "[Test Course - Lesson 2]" +:+ nl
       +:+ "This is content from lesson 2 about advanced topics.").
Proof.
  exact (@search_success_text RefRuntime.runtime Demo.search_tool
           (PStr "basics") PNone PNone eq_refl eq_refl).
Defined.

Lemma search_source_links_witness :
  (exists src : Source,
      CourseSearchTool.last_sources
        (snd (CourseSearchTool.execute (H := RefRuntime.runtime)
                Demo.search_tool (PStr "basics") PNone PNone)) !! 0%nat
      = Some src
      /\ link src = Some "https://example.com/lesson1")
  /\ (exists src : Source,
         CourseSearchTool.last_sources
           (snd (CourseSearchTool.execute (H := RefRuntime.runtime)
                   Demo.search_tool (PStr "basics") PNone PNone)) !! 1%nat
         = Some src
         /\ link src = None).
Proof.
  split.
  - exact (@search_source_links RefRuntime.runtime Demo.search_tool
             (PStr "basics") PNone PNone eq_refl eq_refl 0%nat
             "This is content from lesson 1 about basic concepts."
             {| course_title := Some "Test Course";
                lesson_number := Some 1%Z |} eq_refl).
  - exact (@search_source_links RefRuntime.runtime Demo.search_tool
             (PStr "basics") PNone PNone eq_refl eq_refl 1%nat
             "This is content from lesson 2 about advanced topics."
             {| course_title := Some "Test Course";
                lesson_number := Some 2%Z |} eq_refl).
Defined.

Lemma search_empty_filters_named_witness :
  CourseSearchTool.execute (H := RefRuntime.runtime) Demo.search_tool
    (PStr "nothing") (PStr "MCP") (PInt 3)
  = (Returns "No relevant content found in course 'MCP' in lesson 3.",
     Demo.search_tool).
Proof.
  apply (@search_empty_filters_named RefRuntime.runtime Demo.search_tool
           (PStr "nothing") "MCP" 3%Z);
    [reflexivity | reflexivity | discriminate | discriminate].
Defined.

Lemma outline_lessons_rendered_witness :
  json_loads (PyRuntime := RefRuntime.runtime) Demo.lessons_blob
  = Returns (PList Demo.lessons)
  /\ CourseOutlineTool.execute (H := RefRuntime.runtime) Demo.outline_tool
       (PStr "Test")
     = (Returns
          (join nl ["Course: Test Course"; "Link: https://example.com/course";
                    "Instructor: Ann"; EmptyString; "Lessons:";
                    "- Lesson 1: Intro"; "- Lesson 3: Outro"]),
        {| CourseOutlineTool.store := Demo.store Demo.lessons_blob;
           CourseOutlineTool.last_sources := [Demo.lesson3] |}).
Proof.
  split; [vm_compute; reflexivity|].
  apply (@outline_lessons_rendered RefRuntime.runtime Demo.outline_tool
           (PStr "Test") "Test Course" (Demo.entry Demo.lessons_blob) []
           Demo.lessons);
    [reflexivity | discriminate | reflexivity | vm_compute; reflexivity
     | discriminate | repeat constructor].
Defined.

Lemma outline_ill_shaped_raises_witness :
  json_loads (PyRuntime := RefRuntime.runtime) "[1]"
  = Returns (PList [PInt 1])
  /\ exists e : PyExn,
       CourseOutlineTool.execute (H := RefRuntime.runtime)
         (CourseOutlineTool.__init__ (Demo.store "[1]")) (PStr "Test")
       = (Raises e, CourseOutlineTool.__init__ (Demo.store "[1]")).
Proof.
  split; [reflexivity|].
  apply (@outline_ill_shaped_raises RefRuntime.runtime
           (CourseOutlineTool.__init__ (Demo.store "[1]")) (PStr "Test")
           "Test Course" (Demo.entry "[1]") [] (PList [PInt 1]));
    [reflexivity | discriminate | reflexivity | reflexivity | reflexivity
     | by constructor].
Defined.

Lemma outline_metadata_missing_witness :
  course_catalog_get Demo.orphan_store ["Ghost Course"] = None
  /\ CourseOutlineTool.execute (H := RefRuntime.runtime)
       (CourseOutlineTool.__init__ Demo.orphan_store) (PStr "Ghost")
     = (Returns "Error: Unable to retrieve metadata for 'Ghost Course'",
        CourseOutlineTool.__init__ Demo.orphan_store).
Proof.
  split; [reflexivity|].
  apply (@outline_metadata_missing RefRuntime.runtime
           (CourseOutlineTool.__init__ Demo.orphan_store) (PStr "Ghost")
           "Ghost Course");
    [reflexivity | discriminate | left; reflexivity].
Defined.

Lemma register_tool_definitions_witness :
  ToolManager.get_tool_definitions Demo.manager
  = [CourseSearchTool.get_tool_definition Demo.search_tool;
     CourseOutlineTool.get_tool_definition Demo.outline_tool]
  /\ length (ToolManager.get_tool_definitions
               (snd (ToolManager.register_tool Demo.manager
                       (OtherTool Demo.impostor)))) = 2.
Proof.
  split.
  - apply (proj1 (register_tool_definitions
                    (snd (ToolManager.register_tool ToolManager.__init__
                            (SearchTool Demo.search_tool)))
                    (OutlineTool Demo.outline_tool) "get_course_outline"
                    eq_refl ltac:(discriminate))).
    reflexivity.
  - apply (proj1 (proj2 (register_tool_definitions Demo.manager
                           (OtherTool Demo.impostor) "search_course_content"
                           eq_refl ltac:(discriminate)))).
    discriminate.
Defined.

Lemma register_then_dispatch_witness :
  fst (ToolManager.execute_tool (H := RefRuntime.runtime)
         (snd (ToolManager.register_tool ToolManager.__init__
                 (SearchTool Demo.search_tool)))
         "search_course_content" {[ "query" := PStr "nothing" ]})
  = Returns "No relevant content found.".
Proof.
  rewrite (@register_then_dispatch RefRuntime.runtime ToolManager.__init__
             (SearchTool Demo.search_tool) "search_course_content"
             {[ "query" := PStr "nothing" ]} eq_refl ltac:(discriminate)).
  vm_compute. reflexivity.
Defined.

(** After a turn that left citations in both tools, a reset and a call
    of the outline tool alone: its citation comes through, although the
    search tool is registered first. *)
Lemma single_tool_turn_witness :
  ToolManager.get_last_sources
    (snd (ToolManager.execute_tool (H := RefRuntime.runtime)
            (ToolManager.reset_sources Demo.after_turn)
            "get_course_outline" {[ "course_name" := PStr "Test" ]}))
  = [Demo.lesson3].
Proof.
  rewrite (@single_tool_turn RefRuntime.runtime Demo.after_turn
             "get_course_outline" {[ "course_name" := PStr "Test" ]}
             (OutlineTool
                {| CourseOutlineTool.store := Demo.store Demo.lessons_blob;
                   CourseOutlineTool.last_sources := [Demo.lesson3] |}));
    vm_compute; reflexivity.
Defined.

Lemma reachable_keyed_witness :
  reachable (H := RefRuntime.runtime) Demo.after_turn
  /\ map name (ToolManager.get_tool_definitions Demo.after_turn)
     = [Some "search_course_content"; Some "get_course_outline"].
Proof.
  assert (reachable (H := RefRuntime.runtime) Demo.after_turn) as Hreach.
  { unfold Demo.after_turn, Demo.manager.
    apply reach_execute, reach_execute, reach_register, reach_register,
      reach_init. }
  split; [exact Hreach|].
  destruct (@reachable_keyed RefRuntime.runtime Demo.after_turn Hreach)
    as (_ & _ & Hnames).
  rewrite Hnames. vm_compute. reflexivity.
Defined.

(** ** Empty lesson lists, and searches that leave the registry alone *)

Section EdgeCases.

Context `{PyRuntime}.

(** X14. For a course that resolves, whose lesson blob (or the default
    "[]" when the entry has none) decodes to a falsy value, an empty
    list but also [null], [0], [false], an empty text or an empty
    object, [execute] renders the header followed by "- No lessons
    available" and leaves the tool without citations. *)
Theorem outline_falsy_lessons
  (self : CourseOutlineTool.t) (course_name : PyVal) (resolved : string)
  (entry : CourseMetadata) (others : list CourseMetadata)
  (decoded : PyVal) :
  _resolve_course_name (CourseOutlineTool.store self) course_name
  = Some resolved ->
  resolved <> EmptyString ->
  course_catalog_get (CourseOutlineTool.store self) [resolved]
  = Some (entry :: others) ->
  json_loads (default "[]" (lessons_json entry)) = Returns decoded ->
  py_truthy decoded = false ->
  CourseOutlineTool.execute self course_name =
  (Returns
     (join nl (outline_header (default "Unknown" (title entry))
                 (course_link entry) (default "Unknown" (instructor entry))
               ++ ["- No lessons available"])),
   {| CourseOutlineTool.store := CourseOutlineTool.store self;
      CourseOutlineTool.last_sources := [] |}).
Proof.
  intros Hres Hne Hcat Hjson Hfalsy.
  rewrite (execute_found _ _ _ _ _ Hres Hne Hcat).
  rewrite (parse_lessons_decoded _ _ Hjson).
  unfold CourseOutlineTool._format_outline, outline_header.
  rewrite Hfalsy.
  destruct (truthy_text (course_link entry)); reflexivity.
Qed.

Lemma dict_set_same {V : Type} (k : string) (v : V)
  (d : list (string * V)) :
  dict_get k d = Some v -> dict_set k v d = d.
Proof.
  induction d as [|[k0 w] d IH]; simpl; [done|].
  destruct (String.eqb_spec k0 k) as [-> | Hk].
  - by intros [= ->].
  - intros Hget. by rewrite IH.
Qed.

(** X15. A search run through the registry that ends in the error
    branch or finds nothing leaves the whole registry as it was: unless
    the caller resets, [get_last_sources] goes on returning the citations
    of the earlier calls. *)
Theorem failed_search_leaves_registry
  (self : ToolManager.t) (tool_name : string) (kw : kwargs)
  (tool : CourseSearchTool.t) (query : PyVal) :
  dict_get tool_name (ToolManager.tools self) = Some (SearchTool tool) ->
  unexpected_keyword ["query"; "course_name"; "lesson_number"] kw = false ->
  kw !! "query" = Some query ->
  let results :=
    search (CourseSearchTool.store tool) query
      (default PNone (kw !! "course_name"))
      (default PNone (kw !! "lesson_number")) in
  (exists message : string,
      error results = Some message /\ message <> EmptyString)
  \/ is_empty results = true ->
  snd (ToolManager.execute_tool self tool_name kw) = self
  /\ ToolManager.get_last_sources
       (snd (ToolManager.execute_tool self tool_name kw))
     = ToolManager.get_last_sources self.
Proof.
  intros Hget Hkeys Hquery results Hbranch.
  assert (snd (ToolManager.execute_tool self tool_name kw) = self) as Hsame.
  { unfold ToolManager.execute_tool. rewrite Hget.
    cbn [tool_execute execute CourseSearchTool_Tool].
    unfold CourseSearchTool.call. rewrite Hkeys, Hquery.
    assert (snd (CourseSearchTool.execute tool query
                   (default PNone (kw !! "course_name"))
                   (default PNone (kw !! "lesson_number"))) = tool) as Htool.
    { destruct (truthy_text (error results)) as [message|] eqn:Herr.
      - by rewrite (execute_error_branch _ _ _ _ message).
      - destruct Hbranch as [(message & Hsome & Hne) | Hempty].
        + by rewrite (truthy_text_some _ _ Hsome Hne) in Herr.
        + by rewrite execute_empty_branch. }
    destruct (CourseSearchTool.execute tool query _ _) as [outcome tool'].
    cbn [snd] in *. subst tool'.
    rewrite (dict_set_same _ _ _ Hget). by destruct self. }
  by rewrite Hsame.
Qed.

End EdgeCases.

Lemma outline_falsy_lessons_witness :
  json_loads (PyRuntime := RefRuntime.runtime) "null" = Returns PNone
  /\ CourseOutlineTool.execute (H := RefRuntime.runtime)
       (CourseOutlineTool.__init__ (Demo.store "null")) (PStr "Test")
     = (Returns
          (join nl ["Course: Test Course"; "Link: https://example.com/course";
                    "Instructor: Ann"; EmptyString; "Lessons:";
                    "- No lessons available"]),
        CourseOutlineTool.__init__ (Demo.store "null")).
Proof.
  split; [reflexivity|].
  apply (@outline_falsy_lessons RefRuntime.runtime
           (CourseOutlineTool.__init__ (Demo.store "null")) (PStr "Test")
           "Test Course" (Demo.entry "null") [] PNone);
    reflexivity || discriminate.
Defined.

(** After the turn that left two citations in the search tool, a search
    that finds nothing: the two citations are still returned. *)
Lemma failed_search_leaves_registry_witness :
  snd (ToolManager.execute_tool (H := RefRuntime.runtime) Demo.after_turn
         "search_course_content" {[ "query" := PStr "nothing" ]})
  = Demo.after_turn
  /\ ToolManager.get_last_sources
       (snd (ToolManager.execute_tool (H := RefRuntime.runtime)
               Demo.after_turn "search_course_content"
               {[ "query" := PStr "nothing" ]}))
     = [Demo.lesson1; Demo.lesson2].
Proof.
  apply (@failed_search_leaves_registry RefRuntime.runtime Demo.after_turn
           "search_course_content" {[ "query" := PStr "nothing" ]}
           {| CourseSearchTool.store := Demo.store Demo.lessons_blob;
              CourseSearchTool.last_sources :=
                [Demo.lesson1; Demo.lesson2] |}
           (PStr "nothing"));
    [vm_compute; reflexivity | vm_compute; reflexivity
     | vm_compute; reflexivity | right; reflexivity].
Defined.

(** ** Exceptions of the decoder that [execute] does not catch *)

Section DecoderExceptions.

Context `{PyRuntime}.

(** X16. For a course that resolves, when [json.loads] raises on the
    lesson blob an exception other than [JSONDecodeError] (as it does on
    nesting beyond the recursion limit and on over-long integers),
    [execute] raises that exception and the tool keeps the citations it
    had. *)
Theorem outline_decode_exception_propagates
  (self : CourseOutlineTool.t) (course_name : PyVal) (resolved : string)
  (entry : CourseMetadata) (others : list CourseMetadata) (e : PyExn) :
  _resolve_course_name (CourseOutlineTool.store self) course_name
  = Some resolved ->
  resolved <> EmptyString ->
  course_catalog_get (CourseOutlineTool.store self) [resolved]
  = Some (entry :: others) ->
  json_loads (default "[]" (lessons_json entry)) = Raises e ->
  (forall message : string, e <> JSONDecodeError message) ->
  CourseOutlineTool.execute self course_name = (Raises e, self).
Proof.
  intros Hres Hne Hcat Hjson Hother.
  rewrite (execute_found _ _ _ _ _ Hres Hne Hcat).
  by rewrite (parse_lessons_uncaught _ _ Hjson Hother).
Qed.

End DecoderExceptions.

Lemma outline_decode_exception_propagates_witness :
  exists message : string,
    json_loads (PyRuntime := RefRuntime.runtime) Demo.long_integer_blob
    = Raises (ValueError message)
    /\ CourseOutlineTool.execute (H := RefRuntime.runtime)
         (CourseOutlineTool.__init__ (Demo.store Demo.long_integer_blob))
         (PStr "Test")
       = (Raises (ValueError message),
          CourseOutlineTool.__init__ (Demo.store Demo.long_integer_blob)).
Proof.
  exists "Exceeds the limit (4300 digits) for integer string conversion".
  split; [vm_compute; reflexivity|].
  apply (@outline_decode_exception_propagates RefRuntime.runtime
           (CourseOutlineTool.__init__ (Demo.store Demo.long_integer_blob))
           (PStr "Test") "Test Course" (Demo.entry Demo.long_integer_blob) []);
    [reflexivity | discriminate | reflexivity | vm_compute; reflexivity
     | discriminate].
Defined.
